(** * muforth: the OSX USB words of [usb-darwin.c]

    A shallow embedding of the words [usb-find-device], [usb-close],
    [usb-control], [usb-get-pipe-properties], [usb-read], [usb-write] and of
    the device-level words compiled under [WITH_USB_DEVICE], followed by the
    properties of their stack effects, of their abort paths and of the native
    calls they issue.

    The words run in a small state-and-abort monad over a machine made of the
    data stack, the IOKit world behind the native calls, and a log of those
    calls. *)

From Stdlib Require Import ZArith String List Lia.
From stdpp Require Import base decidable countable functions gmap.
Import ListNotations.

Local Open Scope string_scope.
Local Open Scope list_scope.
Local Open Scope Z_scope.

(** ** Fixed-width integers

    C integers are kept as [Z]; a conversion to a [w]-bit type keeps the low
    [w] bits, read unsigned or in two's complement. *)

Definition to_unsigned (w x : Z) : Z := x mod 2 ^ w.

Definition to_signed (w x : Z) : Z := (x + 2 ^ (w - 1)) mod 2 ^ w - 2 ^ (w - 1).

Definition UInt8 : Z -> Z := to_unsigned 8.
Definition UInt16 : Z -> Z := to_unsigned 16.
Definition UInt32 : Z -> Z := to_unsigned 32.
Definition SInt32 : Z -> Z := to_signed 32.

(** A value stored into a stack cell is converted to the cell type, a signed
    integer whose width [cell_bits] is set in muforth.h. *)
Definition to_cell (cell_bits x : Z) : Z := to_signed cell_bits x.

(** A cell read as an unsigned quantity (a byte count, a size). *)
Definition ucell (cell_bits x : Z) : Z := to_unsigned cell_bits x.

(** ** CoreFoundation and IOKit data *)

(** The class names given to [IOServiceMatching]. *)
Inductive class_name := kIOUSBDeviceClassName | kIOUSBInterfaceClassName.

(** The keys of a matching dictionary. *)
Inductive cfkey :=
| kIOProviderClassKey
| kUSBVendorID
| kUSBProductID
| kUSBInterfaceNumber
| kUSBConfigurationValue.

(** The values of a matching dictionary: a class name, or a [CFNumber] of
    type [kCFNumberSInt32Type]. *)
Inductive cfvalue :=
| CFClassName (name : class_name)
| CFNumberSInt32 (value : Z).

#[global] Instance cfkey_eq_dec : EqDecision cfkey.
Proof. solve_decision. Defined.

Definition cfkey_code (k : cfkey) : positive :=
  match k with
  | kIOProviderClassKey => 1
  | kUSBVendorID => 2
  | kUSBProductID => 3
  | kUSBInterfaceNumber => 4
  | kUSBConfigurationValue => 5
  end%positive.

Definition cfkey_of_code (p : positive) : option cfkey :=
  match p with
  | 1 => Some kIOProviderClassKey
  | 2 => Some kUSBVendorID
  | 3 => Some kUSBProductID
  | 4 => Some kUSBInterfaceNumber
  | 5 => Some kUSBConfigurationValue
  | _ => None
  end%positive.

#[global] Instance cfkey_countable : Countable cfkey.
Proof.
  refine {| encode := cfkey_code; decode := cfkey_of_code |}.
  intros []; reflexivity.
Defined.

(** A [CFMutableDictionaryRef]: a finite map from keys to values. *)
Abbreviation cfdict := (gmap cfkey cfvalue).

(** The UUIDs naming plug-in types and interfaces. *)
Inductive uuid :=
| kIOUSBDeviceUserClientTypeID
| kIOUSBInterfaceUserClientTypeID
| kIOCFPlugInInterfaceID
| kIOUSBDeviceInterfaceID
| kIOUSBInterfaceInterfaceID190.

Inductive mach_port := kIOMasterPortDefault.

Definition kIOReturnSuccess : Z := 0.
Definition NULL : Z := 0.

(** [IOUSBDevRequest]; [wLenDone] is an output of the request and is given
    back by the native call. *)
Record IOUSBDevRequest := {
  dr_bmRequestType : Z;
  dr_bRequest : Z;
  dr_wValue : Z;
  dr_wIndex : Z;
  dr_wLength : Z;
  dr_pData : Z
}.

(** [IOUSBDevRequestTO]: the same request with its two timeouts. *)
Record IOUSBDevRequestTO := {
  bmRequestType : Z;
  bRequest : Z;
  wValue : Z;
  wIndex : Z;
  wLength : Z;
  pData : Z;
  noDataTimeout : Z;
  completionTimeout : Z
}.

(** What one [GetPipeProperties] call writes through its five pointers. *)
Record pipe_properties := {
  pp_direction : Z;
  pp_number : Z;
  pp_transfer_type : Z;
  pp_max_packet_size : Z;
  pp_interval : Z
}.

(** ** The native layer

    The IOKit functions and the methods of the plug-in, device and interface
    objects, as an interface over a world [W] they may read and change.
    Object references are the integer values of their pointers. Each function
    takes the arguments of the C call and gives back its result, the values
    written through its output pointers, and the new world. *)
Class IOKit (W : Type) := {
  IOServiceMatching : class_name -> W -> option cfdict * W;
  IOServiceGetMatchingService : mach_port -> cfdict -> W -> Z * W;
  IOCreatePlugInInterfaceForService : Z -> uuid -> uuid -> W -> Z * Z * W;
  QueryInterface : Z -> uuid -> W -> Z * Z * W;
  Release : Z -> W -> W;
  USBInterfaceOpen : Z -> W -> Z * W;
  USBInterfaceClose : Z -> W -> Z * W;
  DeviceRequest : Z -> IOUSBDevRequest -> W -> Z * W;
  ControlRequestTO : Z -> Z -> IOUSBDevRequestTO -> W -> Z * Z * W;
  GetPipeProperties : Z -> Z -> W -> Z * pipe_properties * W;
  ReadPipeTO : Z -> Z -> Z -> Z -> Z -> Z -> W -> Z * Z * W;
  WritePipeTO : Z -> Z -> Z -> Z -> Z -> Z -> W -> Z * W
}.

(** The native calls, as they are logged. *)
Inductive call :=
| CallIOServiceMatching (name : class_name)
| CallIOServiceGetMatchingService (port : mach_port) (matching : cfdict)
| CallIOCreatePlugInInterfaceForService (service : Z) (pluginType interfaceType : uuid)
| CallQueryInterface (self : Z) (iid : uuid)
| CallRelease (self : Z)
| CallUSBInterfaceOpen (self : Z)
| CallUSBInterfaceClose (self : Z)
| CallDeviceRequest (self : Z) (req : IOUSBDevRequest)
| CallControlRequestTO (self pipeRef : Z) (req : IOUSBDevRequestTO)
| CallGetPipeProperties (self pipeRef : Z)
| CallReadPipeTO (self pipeRef buf size noDataTimeout completionTimeout : Z)
| CallWritePipeTO (self pipeRef buf size noDataTimeout completionTimeout : Z).

(** A log entry: the stack pointer at the moment of the call, and the call. *)
Record event := Event { ev_sp : Z; ev_call : call }.

(** ** The machine *)

(** The data stack is an array of cells addressed in cells, with [sp]
    pointing at the top cell; it grows towards lower addresses. A cell holds
    the integer value of a native pointer unchanged, which is how handles
    travel on the stack. The log is in the order of the calls. *)
Record machine (W : Type) := Machine {
  stack : Z -> Z;
  sp : Z;
  world : W;
  trace : list event
}.

Arguments Machine {W} _ _ _ _.
Arguments stack {W} _ _.
Arguments sp {W} _.
Arguments world {W} _.
Arguments trace {W} _.

(** How a word ends: it returns, or it leaves through [abort_zmsg]. *)
Inductive outcome (A : Type) :=
| Done (a : A)
| Aborted (zmsg : string).

Arguments Done {A} _.
Arguments Aborted {A} _.

Definition usb (W A : Type) : Type := machine W -> outcome A * machine W.

Definition ret {W A} (a : A) : usb W A := fun m => (Done a, m).

Definition bind {W A B} (c : usb W A) (k : A -> usb W B) : usb W B :=
  fun m =>
    match c m with
    | (Done a, m1) => k a m1
    | (Aborted zmsg, m1) => (Aborted zmsg, m1)
    end.

Declare Scope usb_scope.
Delimit Scope usb_scope with usb.

Notation "x <- c ;; k" := (bind c (fun x => k))
  (at level 100, c at next level, right associativity) : usb_scope.
Notation "c ;; k" := (bind c (fun _ => k))
  (at level 100, right associativity) : usb_scope.

(** *** The stack macros of muforth.h *)

(** Modelled from the spec: muforth.h is not among the sources. Its stack
    macros read and write fixed stack slots: [SP[n]] is the cell [n] cells
    above the stack pointer, [TOP], [ST1], [ST2], [ST3] are [SP[0]] to
    [SP[3]], and [DROP(n)] moves the stack pointer up by [n] cells (down for
    a negative [n]). None of them checks a bound. *)
Definition SP {W} (n : Z) : usb W Z :=
  fun m => (Done (stack m (sp m + n)), m).

Definition TOP {W} : usb W Z := SP 0.
Definition ST1 {W} : usb W Z := SP 1.
Definition ST2 {W} : usb W Z := SP 2.
Definition ST3 {W} : usb W Z := SP 3.

Definition set_SP {W} (n v : Z) : usb W unit :=
  fun m => (Done tt, Machine (<[sp m + n := v]> (stack m)) (sp m) (world m) (trace m)).

Definition set_TOP {W} : Z -> usb W unit := set_SP 0.
Definition set_ST1 {W} : Z -> usb W unit := set_SP 1.
Definition set_ST2 {W} : Z -> usb W unit := set_SP 2.
Definition set_ST3 {W} : Z -> usb W unit := set_SP 3.

Definition DROP {W} (n : Z) : usb W unit :=
  fun m => (Done tt, Machine (stack m) (sp m + n) (world m) (trace m)).

(** Modelled from the spec: [abort_zmsg] of muforth.h is a non-local exit
    carrying a fixed message. The word stops there; the machine is left as
    it is at that point. *)
Definition abort_zmsg {W A} (zmsg : string) : usb W A :=
  fun m => (Aborted zmsg, m).

(** *** Issuing a native call *)

(** A native call is logged with the stack pointer of the moment, then run
    on the world. *)
Definition native {W A} (c : call) (f : W -> A * W) : usb W A :=
  fun m =>
    let '(a, w) := f (world m) in
    (Done a, Machine (stack m) (sp m) w (trace m ++ [Event (sp m) c])).

(** ** The words *)

Local Open Scope usb_scope.

(** [add_number_match]: a [CFNumber] holding the [SInt32] argument is
    created, set in the dictionary under the key, and released. The
    parameter has type [SInt32], so the argument is converted to it. *)
Definition add_number_match (matching : cfdict) (keyRef : cfkey) (value : Z) : cfdict :=
  <[keyRef := CFNumberSInt32 (SInt32 value)]> matching.

(** The words compiled under [WITH_USB_DEVICE], which work on a whole
    device. *)
Module Device.
Section Words.
Context {W : Type} `{IOKit W}.

(** usb-find-device (vendor-id product-id -- handle -1 | 0) *)
Definition mu_usb_find_device : usb W unit :=
  matching <- native (CallIOServiceMatching kIOUSBDeviceClassName)
                     (IOServiceMatching kIOUSBDeviceClassName) ;;
  match matching with
  | None => abort_zmsg "IOServiceMatching returned NULL"
  | Some matching =>
    vendor <- ST1 ;;
    let matching := add_number_match matching kUSBVendorID vendor in
    product <- TOP ;;
    let matching := add_number_match matching kUSBProductID product in
    ioService <- native (CallIOServiceGetMatchingService kIOMasterPortDefault matching)
                        (IOServiceGetMatchingService kIOMasterPortDefault matching) ;;
    if ioService =? 0 then
      DROP 1 ;;
      set_TOP 0
    else
      r <- native (CallIOCreatePlugInInterfaceForService ioService
                     kIOUSBDeviceUserClientTypeID kIOCFPlugInInterfaceID)
                  (IOCreatePlugInInterfaceForService ioService
                     kIOUSBDeviceUserClientTypeID kIOCFPlugInInterfaceID) ;;
      let '(ior, pluginInterface) := r in
      if negb (ior =? kIOReturnSuccess) || (pluginInterface =? NULL) then
        abort_zmsg "IOCreatePlugInInterfaceForService failed"
      else
        r <- native (CallQueryInterface pluginInterface kIOUSBDeviceInterfaceID)
                    (QueryInterface pluginInterface kIOUSBDeviceInterfaceID) ;;
        let '(ior, deviceInterface) := r in
        native (CallRelease pluginInterface)
               (fun w => (tt, Release pluginInterface w)) ;;
        if negb (ior =? kIOReturnSuccess) || (deviceInterface =? NULL) then
          abort_zmsg "QueryInterface failed"
        else
          set_ST1 deviceInterface ;;
          set_TOP (-1)
  end.

(** usb-close-device (devhandle) *)
Definition mu_usb_close_device : usb W unit :=
  deviceInterface <- TOP ;;
  native (CallRelease deviceInterface)
         (fun w => (tt, Release deviceInterface w)) ;;
  DROP 1.

(** usb-device-request
    (bmRequestType bRequest wValue wIndex wLength 'buffer device) *)
Definition mu_usb_device_request : usb W unit :=
  dev <- TOP ;;
  tr_bmRequestType <- SP 6 ;;
  tr_bRequest <- SP 5 ;;
  tr_wValue <- SP 4 ;;
  tr_wIndex <- ST3 ;;
  tr_wLength <- ST2 ;;
  tr_pData <- ST1 ;;
  let tr := {| dr_bmRequestType := UInt8 tr_bmRequestType;
               dr_bRequest := UInt8 tr_bRequest;
               dr_wValue := UInt16 tr_wValue;
               dr_wIndex := UInt16 tr_wIndex;
               dr_wLength := UInt16 tr_wLength;
               dr_pData := tr_pData |} in
  DROP 7 ;;
  ior <- native (CallDeviceRequest dev tr) (DeviceRequest dev tr) ;;
  if negb (ior =? kIOReturnSuccess) then
    abort_zmsg "DeviceRequest failed"
  else
    ret tt.

End Words.
End Device.

Section Words.
Context {W : Type} `{IOKit W}.

(** The width in bits of a stack cell; the cell type is declared in
    muforth.h, which is not among the sources. *)
Variable cell_bits : Z.

(** usb-find-device (vendor-id product-id -- dev -1 | 0)

    Match vid and pid, and try to open interface 0. *)
Definition mu_usb_find_device : usb W unit :=
  matching <- native (CallIOServiceMatching kIOUSBInterfaceClassName)
                     (IOServiceMatching kIOUSBInterfaceClassName) ;;
  match matching with
  | None => abort_zmsg "IOServiceMatching returned NULL"
  | Some matching =>
    vendor <- ST1 ;;
    let matching := add_number_match matching kUSBVendorID vendor in
    product <- TOP ;;
    let matching := add_number_match matching kUSBProductID product in
    let matching := add_number_match matching kUSBInterfaceNumber 0 in
    let matching := add_number_match matching kUSBConfigurationValue 1 in
    ioService <- native (CallIOServiceGetMatchingService kIOMasterPortDefault matching)
                        (IOServiceGetMatchingService kIOMasterPortDefault matching) ;;
    if ioService =? 0 then
      DROP 1 ;;
      set_TOP 0
    else
      r <- native (CallIOCreatePlugInInterfaceForService ioService
                     kIOUSBInterfaceUserClientTypeID kIOCFPlugInInterfaceID)
                  (IOCreatePlugInInterfaceForService ioService
                     kIOUSBInterfaceUserClientTypeID kIOCFPlugInInterfaceID) ;;
      let '(ior, pluginInterface) := r in
      if negb (ior =? kIOReturnSuccess) || (pluginInterface =? NULL) then
        abort_zmsg "IOCreatePlugInInterfaceForService failed"
      else
        r <- native (CallQueryInterface pluginInterface kIOUSBInterfaceInterfaceID190)
                    (QueryInterface pluginInterface kIOUSBInterfaceInterfaceID190) ;;
        let '(ior, intfInterface) := r in
        native (CallRelease pluginInterface)
               (fun w => (tt, Release pluginInterface w)) ;;
        if negb (ior =? kIOReturnSuccess) || (intfInterface =? NULL) then
          abort_zmsg "QueryInterface failed"
        else
          ior <- native (CallUSBInterfaceOpen intfInterface)
                        (USBInterfaceOpen intfInterface) ;;
          if negb (ior =? kIOReturnSuccess) then
            abort_zmsg "USBInterfaceOpen failed"
          else
            set_ST1 intfInterface ;;
            set_TOP (-1)
  end.

(** usb-close (dev) *)
Definition mu_usb_close : usb W unit :=
  intfInterface <- TOP ;;
  ior <- native (CallUSBInterfaceClose intfInterface)
                (USBInterfaceClose intfInterface) ;;
  if negb (ior =? kIOReturnSuccess) then
    abort_zmsg "USBInterfaceClose failed"
  else
    native (CallRelease intfInterface)
           (fun w => (tt, Release intfInterface w)) ;;
    DROP 1.

(** usb-control
    (bmRequestType bRequest wValue wIndex wLength 'buffer dev - count) *)
Definition mu_usb_control : usb W unit :=
  intf <- TOP ;;
  tr_bmRequestType <- SP 6 ;;
  tr_bRequest <- SP 5 ;;
  tr_wValue <- SP 4 ;;
  tr_wIndex <- ST3 ;;
  tr_wLength <- ST2 ;;
  tr_pData <- ST1 ;;
  let tr := {| bmRequestType := UInt8 tr_bmRequestType;
               bRequest := UInt8 tr_bRequest;
               wValue := UInt16 tr_wValue;
               wIndex := UInt16 tr_wIndex;
               wLength := UInt16 tr_wLength;
               pData := tr_pData;
               noDataTimeout := 1000;
               completionTimeout := 4000 |} in
  DROP 6 ;;
  r <- native (CallControlRequestTO intf 0 tr) (ControlRequestTO intf 0 tr) ;;
  let '(ior, tr_wLenDone) := r in
  if negb (ior =? kIOReturnSuccess) then
    set_TOP 0 ;;
    abort_zmsg "ControlRequest failed"
  else
    set_TOP (to_cell cell_bits tr_wLenDone).

(** usb-get-pipe-properties
    (pipe# dev -- direction number transferType maxpacketsize interval),
    compiled under [WITH_USB_EXTRAS]. *)
Definition mu_usb_get_pipe_properties : usb W unit :=
  intf <- TOP ;;
  pipe <- ST1 ;;
  r <- native (CallGetPipeProperties intf (UInt8 pipe))
              (GetPipeProperties intf (UInt8 pipe)) ;;
  let '(ior, props) := r in
  if negb (ior =? kIOReturnSuccess) then
    abort_zmsg "GetPipeProperties failed"
  else
    DROP (-3) ;;
    set_SP 4 (to_cell cell_bits (pp_direction props)) ;;
    set_ST3 (to_cell cell_bits (pp_number props)) ;;
    set_ST2 (to_cell cell_bits (pp_transfer_type props)) ;;
    set_ST1 (to_cell cell_bits (pp_max_packet_size props)) ;;
    set_TOP (to_cell cell_bits (pp_interval props)).

(** usb-read ( 'buffer size pipe# dev -- #read) *)
Definition mu_usb_read : usb W unit :=
  intf <- TOP ;;
  size <- ST2 ;;
  let size := UInt32 size in
  pipe <- ST1 ;;
  let pipe := UInt8 pipe in
  buffer <- ST3 ;;
  r <- native (CallReadPipeTO intf pipe buffer size 100 400)
              (ReadPipeTO intf pipe buffer size 100 400) ;;
  let '(ior, size) := r in
  if negb (ior =? kIOReturnSuccess) then
    abort_zmsg "ReadPipe failed"
  else
    DROP 3 ;;
    set_TOP (to_cell cell_bits size).

(** usb-write ( 'buffer size pipe# dev) *)
Definition mu_usb_write : usb W unit :=
  intf <- TOP ;;
  pipe <- ST1 ;;
  let pipe := UInt8 pipe in
  buffer <- ST3 ;;
  size <- ST2 ;;
  r <- native (CallWritePipeTO intf pipe buffer (UInt32 size) 100 400)
              (WritePipeTO intf pipe buffer (UInt32 size) 100 400) ;;
  if negb (r =? kIOReturnSuccess) then
    abort_zmsg "WritePipe failed"
  else
    DROP 4.

End Words.

(** ** Reading a machine *)

(** The cell [n] cells under the top of the stack. *)
Definition peek {W} (m : machine W) (n : Z) : Z := stack m (sp m + n).

(** The [n] topmost cells, the top first. *)
Definition stack_cells {W} (m : machine W) (n : nat) : list Z :=
  map (fun i => peek m (Z.of_nat i)) (seq 0 n).

(** The stack effect [( ins -- outs )] between two machines: the stack
    pointer has moved by the difference of the two counts, the outputs are
    the topmost cells (the last one on top), and no cell under the inputs
    has changed. *)
Definition stack_effect {W} (m m' : machine W) (ins : nat) (outs : list Z) : Prop :=
  sp m' + Z.of_nat (length outs) = sp m + Z.of_nat ins /\
  stack_cells m' (length outs) = rev outs /\
  forall a, sp m + Z.of_nat ins <= a -> stack m' a = stack m a.

(** A cell value that fits the signed cell type. *)
Definition cell_ok (cell_bits x : Z) : Prop :=
  - 2 ^ (cell_bits - 1) <= x < 2 ^ (cell_bits - 1).

(** The value of a C variable of an unsigned [w]-bit type. *)
Definition unsigned_ok (w x : Z) : Prop := 0 <= x < 2 ^ w.

(** The five properties have the types of the C variables they are written
    to: [UInt8], [UInt8], [UInt8], [UInt16], [UInt8]. *)
Definition pipe_properties_ok (p : pipe_properties) : Prop :=
  unsigned_ok 8 (pp_direction p) /\ unsigned_ok 8 (pp_number p) /\
  unsigned_ok 8 (pp_transfer_type p) /\ unsigned_ok 16 (pp_max_packet_size p) /\
  unsigned_ok 8 (pp_interval p).

(** The matching dictionary the interface-level lookup builds from the one
    [IOServiceMatching] gave and the two cells. *)
Definition interface_criteria (matching : cfdict) (vendor product : Z) : cfdict :=
  add_number_match
    (add_number_match
       (add_number_match
          (add_number_match matching kUSBVendorID vendor)
          kUSBProductID product)
       kUSBInterfaceNumber 0)
    kUSBConfigurationValue 1.

(** The matching dictionary of the device-level lookup. *)
Definition device_criteria (matching : cfdict) (vendor product : Z) : cfdict :=
  add_number_match (add_number_match matching kUSBVendorID vendor)
                   kUSBProductID product.


(** The log entries a run from [m] to [m'] has added. *)
Definition new_events {W} (m m' : machine W) : list event :=
  skipn (length (trace m)) (trace m').

(** How many times the log releases the object [p]. *)
Definition is_release (p : Z) (e : event) : bool :=
  match ev_call e with
  | CallRelease self => self =? p
  | _ => false
  end.

Definition releases_of (p : Z) (t : list event) : nat :=
  length (List.filter (is_release p) t).

(** The first stage of a lookup has gone through on machine [m]: the
    matching dictionary was made, the lookup found the service [ioService],
    and the plug-in interface [pluginInterface] was created for it, leaving
    the world [w3]. [name], [criteria] and [pluginType] tell the
    interface-level lookup from the device-level one. *)
Definition plugin_created {W} `{IOKit W} (name : class_name)
    (criteria : cfdict -> Z -> Z -> cfdict) (pluginType : uuid)
    (m : machine W) (matching : cfdict) (ioService pluginInterface : Z) (w3 : W) : Prop :=
  exists w1 w2,
    IOServiceMatching name (world m) = (Some matching, w1) /\
    IOServiceGetMatchingService kIOMasterPortDefault
      (criteria matching (peek m 1) (peek m 0)) w1 = (ioService, w2) /\
    ioService <> 0 /\
    IOCreatePlugInInterfaceForService ioService pluginType kIOCFPlugInInterfaceID w2
      = (kIOReturnSuccess, pluginInterface, w3) /\
    pluginInterface <> NULL.

(** The native calls of a log, in order, without the stack pointers. *)
Definition calls (t : list event) : list call := map ev_call t.

(** What a call does to the world: the native function it names, applied to
    its arguments. *)
Definition apply_call {W} `{IOKit W} (c : call) (w : W) : W :=
  match c with
  | CallIOServiceMatching name => snd (IOServiceMatching name w)
  | CallIOServiceGetMatchingService port matching =>
      snd (IOServiceGetMatchingService port matching w)
  | CallIOCreatePlugInInterfaceForService service pluginType interfaceType =>
      snd (IOCreatePlugInInterfaceForService service pluginType interfaceType w)
  | CallQueryInterface self iid => snd (QueryInterface self iid w)
  | CallRelease self => Release self w
  | CallUSBInterfaceOpen self => snd (USBInterfaceOpen self w)
  | CallUSBInterfaceClose self => snd (USBInterfaceClose self w)
  | CallDeviceRequest self req => snd (DeviceRequest self req w)
  | CallControlRequestTO self pipeRef req => snd (ControlRequestTO self pipeRef req w)
  | CallGetPipeProperties self pipeRef => snd (GetPipeProperties self pipeRef w)
  | CallReadPipeTO self pipeRef buf size noDataTimeout completionTimeout =>
      snd (ReadPipeTO self pipeRef buf size noDataTimeout completionTimeout w)
  | CallWritePipeTO self pipeRef buf size noDataTimeout completionTimeout =>
      snd (WritePipeTO self pipeRef buf size noDataTimeout completionTimeout w)
  end.

(** The world after a list of calls made one after the other. *)
Definition replay {W} `{IOKit W} (t : list call) (w : W) : W :=
  fold_left (fun w c => apply_call c w) t w.

(** The three log entries of that first stage. *)
Definition first_stage (name : class_name) (criteria : cfdict) (pluginType : uuid)
    (at_sp ioService : Z) : list event :=
  [Event at_sp (CallIOServiceMatching name);
   Event at_sp (CallIOServiceGetMatchingService kIOMasterPortDefault criteria);
   Event at_sp (CallIOCreatePlugInInterfaceForService ioService pluginType
                  kIOCFPlugInInterfaceID)].

(** What a lookup [word] does with a plug-in interface [p] it has created in
    world [w3], whatever the later native answers are: its log goes on with
    the query for [iid] and, next, the release of [p]; [p] is released once
    in the whole call; when the query fails the word aborts with [p]
    already released; and whatever the query answers, the world it leaves
    has [Release] applied to it for [p], once, before anything else is done
    to it: the final world is that released world, taken through the calls
    that follow, none of which releases [p]. *)
Definition released_after_query {W} `{IOKit W} (word : usb W unit) (iid : uuid)
    (m : machine W) (before : list event) (p : Z) (w3 : W) : Prop :=
  (exists rest,
     trace (snd (word m)) =
       trace m ++ before ++
       [Event (sp m) (CallQueryInterface p iid); Event (sp m) (CallRelease p)] ++ rest /\
     releases_of p before = 0%nat /\
     releases_of p rest = 0%nat /\
     releases_of p (before ++
       [Event (sp m) (CallQueryInterface p iid); Event (sp m) (CallRelease p)] ++ rest)
       = 1%nat) /\
  (forall ior typed w4,
     QueryInterface p iid w3 = (ior, typed, w4) ->
     ior <> kIOReturnSuccess \/ typed = NULL ->
     word m =
       (Aborted "QueryInterface failed",
        Machine (stack m) (sp m) (Release p w4)
          (trace m ++ before ++
           [Event (sp m) (CallQueryInterface p iid); Event (sp m) (CallRelease p)]))) /\
  (forall ior typed w4,
     QueryInterface p iid w3 = (ior, typed, w4) ->
     exists rest,
       trace (snd (word m)) =
         trace m ++ before ++
         [Event (sp m) (CallQueryInterface p iid); Event (sp m) (CallRelease p)] ++ rest /\
       releases_of p rest = 0%nat /\
       world (snd (word m)) = replay (calls rest) (Release p w4)).


(** The request [usb-control] builds from the seven cells on the stack. *)
Definition control_request {W} (m : machine W) : IOUSBDevRequestTO :=
  {| bmRequestType := UInt8 (peek m 6);
     bRequest := UInt8 (peek m 5);
     wValue := UInt16 (peek m 4);
     wIndex := UInt16 (peek m 3);
     wLength := UInt16 (peek m 2);
     pData := peek m 1;
     noDataTimeout := 1000;
     completionTimeout := 4000 |}.


(** ** A scripted native layer

    A stand-in for IOKit that answers from a script: one attached device,
    and a fixed answer for each later step. It keeps the list of the objects
    released so far. *)
Record script := {
  s_matching_ok : bool;
  s_vendor : Z;
  s_product : Z;
  s_service : Z;
  s_plugin : Z * Z;
  s_query : Z * Z;
  s_open : Z;
  s_close : Z;
  s_device_request : Z;
  s_control : Z * Z;
  s_pipe : Z * pipe_properties;
  s_read : Z * Z;
  s_write : Z;
  s_released : list Z
}.

Definition script_release (p : Z) (s : script) : script :=
  {| s_matching_ok := s_matching_ok s; s_vendor := s_vendor s;
     s_product := s_product s; s_service := s_service s;
     s_plugin := s_plugin s; s_query := s_query s; s_open := s_open s;
     s_close := s_close s; s_device_request := s_device_request s;
     s_control := s_control s; s_pipe := s_pipe s; s_read := s_read s;
     s_write := s_write s; s_released := p :: s_released s |}.

Definition cfvalue_is (v : option cfvalue) (n : Z) : bool :=
  match v with
  | Some (CFNumberSInt32 k) => k =? n
  | _ => false
  end.

#[global] Instance script_IOKit : IOKit script := {|
  IOServiceMatching name s :=
    (if s_matching_ok s then Some {[ kIOProviderClassKey := CFClassName name ]}
     else None, s);
  IOServiceGetMatchingService _ matching s :=
    (if cfvalue_is (matching !! kUSBVendorID) (s_vendor s)
        && cfvalue_is (matching !! kUSBProductID) (s_product s)
     then s_service s else 0, s);
  IOCreatePlugInInterfaceForService _ _ _ s := (s_plugin s, s);
  QueryInterface _ _ s := (s_query s, s);
  Release p s := script_release p s;
  USBInterfaceOpen _ s := (s_open s, s);
  USBInterfaceClose _ s := (s_close s, s);
  DeviceRequest _ _ s := (s_device_request s, s);
  ControlRequestTO _ _ req s :=
    (fst (s_control s), Z.min (snd (s_control s)) (wLength req), s);
  GetPipeProperties _ _ s := (s_pipe s, s);
  ReadPipeTO _ _ _ size _ _ s := (fst (s_read s), Z.min (snd (s_read s)) size, s);
  WritePipeTO _ _ _ _ _ _ s := (s_write s, s)
|}.

(** A stack memory holding [cells] from address [base] upwards, the first on
    top, and zero elsewhere. *)
Definition stack_of (base : Z) (cells : list Z) : Z -> Z :=
  fun a => if a <? base then 0 else nth (Z.to_nat (a - base)) cells 0.

(** A script with an ST-Link-like device attached, every step succeeding. *)
Definition stlink : script :=
  {| s_matching_ok := true; s_vendor := 0x0483; s_product := 0x5740;
     s_service := 0x1203; s_plugin := (0, 0x7000); s_query := (0, 0x7100);
     s_open := 0; s_close := 0; s_device_request := 0;
     s_control := (0, 18);
     s_pipe := (0, {| pp_direction := 1; pp_number := 2; pp_transfer_type := 2;
                      pp_max_packet_size := 512; pp_interval := 0 |});
     s_read := (0, 64); s_write := 0; s_released := [] |}.

(** The same script with one answer replaced by a failure code. *)
Definition kIOReturnError : Z := 0xe00002bc.

Definition fail_query (s : script) : script :=
  {| s_matching_ok := s_matching_ok s; s_vendor := s_vendor s;
     s_product := s_product s; s_service := s_service s;
     s_plugin := s_plugin s; s_query := (kIOReturnError, 0); s_open := s_open s;
     s_close := s_close s; s_device_request := s_device_request s;
     s_control := s_control s; s_pipe := s_pipe s; s_read := s_read s;
     s_write := s_write s; s_released := s_released s |}.

Definition fail_transfers (s : script) : script :=
  {| s_matching_ok := s_matching_ok s; s_vendor := s_vendor s;
     s_product := s_product s; s_service := s_service s;
     s_plugin := s_plugin s; s_query := s_query s; s_open := s_open s;
     s_close := kIOReturnError; s_device_request := kIOReturnError;
     s_control := (kIOReturnError, 0);
     s_pipe := (kIOReturnError, snd (s_pipe s));
     s_read := (kIOReturnError, 0);
     s_write := kIOReturnError; s_released := s_released s |}.

(** Machines the scripted layer is run on: a lookup of the attached device,
    a lookup of an absent one, and a transfer on an open handle. *)
Definition find_stlink (s : script) : machine script :=
  Machine (stack_of 100 [0x5740; 0x0483; 7]) 100 s [].

Definition find_absent (s : script) : machine script :=
  Machine (stack_of 100 [0xFFFF; 0xFFFF; 7]) 100 s [].


Definition on_handle (s : script) (cells : list Z) : machine script :=
  Machine (stack_of 100 (0x7100 :: cells)) 100 s [].

(** The cells of a GET_DESCRIPTOR request of 18 bytes, under the handle:
    the buffer, wLength, wIndex, wValue, bRequest, bmRequestType, and one
    cell more that belongs to the caller. *)
Definition get_descriptor : list Z := [0x9000; 18; 0; 0x100; 6; 0x80; 7].

(** Whether a log entry opens an interface. *)
Definition is_open (e : event) : bool :=
  match ev_call e with
  | CallUSBInterfaceOpen _ => true
  | _ => false
  end.

(** The scripted layer with the matching dictionary refused, the plug-in
    creation failing, or the open failing. *)
Definition fail_matching (s : script) : script :=
  {| s_matching_ok := false; s_vendor := s_vendor s;
     s_product := s_product s; s_service := s_service s;
     s_plugin := s_plugin s; s_query := s_query s; s_open := s_open s;
     s_close := s_close s; s_device_request := s_device_request s;
     s_control := s_control s; s_pipe := s_pipe s; s_read := s_read s;
     s_write := s_write s; s_released := s_released s |}.

Definition fail_plugin (s : script) : script :=
  {| s_matching_ok := s_matching_ok s; s_vendor := s_vendor s;
     s_product := s_product s; s_service := s_service s;
     s_plugin := (kIOReturnError, 0); s_query := s_query s; s_open := s_open s;
     s_close := s_close s; s_device_request := s_device_request s;
     s_control := s_control s; s_pipe := s_pipe s; s_read := s_read s;
     s_write := s_write s; s_released := s_released s |}.

Definition fail_open (s : script) : script :=
  {| s_matching_ok := s_matching_ok s; s_vendor := s_vendor s;
     s_product := s_product s; s_service := s_service s;
     s_plugin := s_plugin s; s_query := s_query s; s_open := kIOReturnError;
     s_close := s_close s; s_device_request := s_device_request s;
     s_control := s_control s; s_pipe := s_pipe s; s_read := s_read s;
     s_write := s_write s; s_released := s_released s |}.

(** The cells of a control request whose length cell is 65536. *)
Definition long_request : list Z := [0x9000; 65536; 0; 0x100; 6; 0x80; 7].

(** The cells of a read of 512 bytes from pipe 1, under the handle, and one
    cell more that belongs to the caller. *)
Definition read_512 : list Z := [1; 512; 0x9000; 7].

(** * Properties *)

(** ** Fixed-width conversions *)

Lemma to_signed_id (w x : Z) :
  0 < w -> - 2 ^ (w - 1) <= x < 2 ^ (w - 1) -> to_signed w x = x.
Proof.
  intros Hw Hx. unfold to_signed.
  assert (E : 2 ^ w = 2 * 2 ^ (w - 1)).
  { replace w with (Z.succ (w - 1)) at 1 by lia. apply Z.pow_succ_r. lia. }
  rewrite Z.mod_small by lia. lia.
Qed.

Lemma to_unsigned_id (w x : Z) : 0 <= x < 2 ^ w -> to_unsigned w x = x.
Proof. intros Hx. unfold to_unsigned. now apply Z.mod_small. Qed.

Lemma to_unsigned_range (w x : Z) : 0 <= w -> 0 <= to_unsigned w x < 2 ^ w.
Proof. intros Hw. unfold to_unsigned. apply Z.mod_pos_bound. now apply Z.pow_pos_nonneg. Qed.

Lemma pow2_le_half_cell (cell_bits k : Z) :
  0 <= k < cell_bits -> 2 ^ k <= 2 ^ (cell_bits - 1).
Proof. intros Hk. apply Z.pow_le_mono_r; lia. Qed.

(** An unsigned value narrower than a cell is stored in it unchanged. *)
Lemma to_cell_unsigned (cell_bits k x : Z) :
  0 <= k < cell_bits -> unsigned_ok k x -> to_cell cell_bits x = x.
Proof.
  intros Hk [Hx0 Hx1]. unfold to_cell. apply to_signed_id; [lia |].
  pose proof (pow2_le_half_cell cell_bits k Hk).
  assert (0 < 2 ^ (cell_bits - 1)) by (apply Z.pow_pos_nonneg; lia). lia.
Qed.

(** Narrowing to 32 bits never grows a value read unsigned. *)
Lemma UInt32_le_ucell (cell_bits x : Z) :
  32 <= cell_bits -> UInt32 x <= ucell cell_bits x.
Proof.
  intros Hw. unfold UInt32, ucell, to_unsigned.
  assert (P32 : 0 < 2 ^ 32) by now apply Z.pow_pos_nonneg.
  assert (Pw : 0 < 2 ^ cell_bits) by (apply Z.pow_pos_nonneg; lia).
  assert (D : (2 ^ 32 | 2 ^ cell_bits)).
  { exists (2 ^ (cell_bits - 32)). rewrite <- Z.pow_add_r by lia. f_equal. lia. }
  rewrite <- (Z.mod_mod_divide x (2 ^ cell_bits) (2 ^ 32) D).
  apply Z.mod_le; [| lia]. apply Z.mod_pos_bound. lia.
Qed.

Lemma UInt32_le_nonneg (x : Z) : 0 <= x -> UInt32 x <= x.
Proof. intros Hx. unfold UInt32, to_unsigned. apply Z.mod_le; [lia | now apply Z.pow_pos_nonneg]. Qed.

(** ** Running a word *)

(** Unfold the monad and the stack macros, feeding the native answers given
    as hypotheses. *)
Ltac usb_simpl := cbn [stack sp world trace fst snd negb orb andb] in *.

Ltac usb_unfold :=
  unfold bind, ret, native, abort_zmsg, TOP, ST1, ST2, ST3, SP,
    set_TOP, set_ST1, set_ST2, set_ST3, set_SP, DROP, peek in *;
  usb_simpl.

Ltac usb_feed :=
  usb_simpl;
  repeat (match goal with
          | E : ?f = (_, _) |- context [?f] => rewrite E
          | E : (?a =? ?b) = _ |- context [?a =? ?b] => rewrite E
          | |- context [?a =? ?a] => rewrite (Z.eqb_refl a)
          end; usb_simpl).

Ltac usb_run := usb_unfold; usb_feed.

(** Resolve the reads of a stack memory built by slot updates. *)
Ltac stack_lookup :=
  repeat match goal with
         | |- context [<[?a := ?v]> ?f ?b] =>
             first
               [ let E := fresh "E" in
                 assert (E : <[a := v]> f b = v)
                   by (replace b with a by lia; apply fn_lookup_insert);
                 rewrite E; clear E
               | rewrite (fn_lookup_insert_ne f a b v) by lia ]
         end.

(** Settle a stack effect between a machine and an explicit one. *)
Ltac stack_effect_solve :=
  unfold stack_effect, stack_cells, peek;
  cbn [stack sp world trace length rev app map seq];
  split; [lia | split; [repeat f_equal; stack_lookup; try reflexivity
                       | intros ? ?; stack_lookup; reflexivity]].

Lemma new_events_app {W} (m m' : machine W) (evs : list event) :
  trace m' = trace m ++ evs -> new_events m m' = evs.
Proof. intros E. unfold new_events. rewrite E. apply drop_app_length. Qed.

Ltac trace_norm := cbn [trace snd]; rewrite <- ?app_assoc; cbn [app].


Lemma releases_of_app (p : Z) (t1 t2 : list event) :
  releases_of p (t1 ++ t2) = (releases_of p t1 + releases_of p t2)%nat.
Proof. unfold releases_of. now rewrite List.filter_app, length_app. Qed.

Lemma releases_of_query_release (p at_sp : Z) (iid : uuid) :
  releases_of p [Event at_sp (CallQueryInterface p iid); Event at_sp (CallRelease p)]
  = 1%nat.
Proof. unfold releases_of. cbn. now rewrite Z.eqb_refl. Qed.

Lemma query_failed (ior typed : Z) :
  ior <> kIOReturnSuccess \/ typed = NULL ->
  negb (ior =? kIOReturnSuccess) || (typed =? NULL) = true.
Proof.
  intros [Hior | ->].
  - apply Z.eqb_neq in Hior. now rewrite Hior.
  - rewrite Z.eqb_refl. apply orb_true_r.
Qed.

(** Close the log part of [released_after_query] once the entries after the
    release are known. *)
Ltac released_with rest :=
  exists rest; split; [trace_norm; reflexivity |];
  split; [reflexivity |];
  split; [reflexivity |];
  rewrite !releases_of_app, releases_of_query_release;
  reflexivity.

(** Close the world part of [released_after_query] once the entries after
    the release are known. *)
Ltac released_world rest :=
  exists rest; split; [trace_norm; reflexivity |];
  split; [reflexivity |];
  unfold replay, calls; cbn [map fold_left ev_call apply_call];
  usb_feed; reflexivity.

Section Lookup.
Context {W : Type} `{IOKit W}.

(** C1: when the native lookup of the interface-level [usb-find-device]
    finds no service, the word returns normally with the stack effect
    [( vendor-id product-id -- 0 )]: the two inputs are replaced by the
    single cell 0, one cell fewer on the stack, and no handle is made: the
    lookup is the last native call. *)
Theorem find_device_not_found (m : machine W) (matching : cfdict) (w1 w2 : W) :
  IOServiceMatching kIOUSBInterfaceClassName (world m) = (Some matching, w1) ->
  IOServiceGetMatchingService kIOMasterPortDefault
    (interface_criteria matching (peek m 1) (peek m 0)) w1 = (0, w2) ->
  exists m',
    mu_usb_find_device m = (Done tt, m') /\
    stack_effect m m' 2 [0] /\
    sp m' = sp m + 1 /\
    trace m' = trace m ++
      [Event (sp m) (CallIOServiceMatching kIOUSBInterfaceClassName);
       Event (sp m) (CallIOServiceGetMatchingService kIOMasterPortDefault
                       (interface_criteria matching (peek m 1) (peek m 0)))].
Proof.
  intros Hmatching Hlookup. unfold mu_usb_find_device, interface_criteria in *.
  usb_run. eexists. split; [reflexivity |].
  split; [stack_effect_solve |].
  cbn [stack sp world trace]. split; [reflexivity |].
  rewrite <- app_assoc. reflexivity.
Qed.

(** C2: when the lookup, the creation of the plug-in interface, the query
    for the interface and its opening all succeed, the interface-level
    [usb-find-device] returns normally with the stack effect
    [( vendor-id product-id -- handle -1 )]: the opened interface under a
    flag with every bit set, the stack as deep as before. *)
Theorem find_device_found (m : machine W) (matching : cfdict)
    (ioService pluginInterface intfInterface : Z) (w3 w4 w5 : W) :
  plugin_created kIOUSBInterfaceClassName interface_criteria
    kIOUSBInterfaceUserClientTypeID m matching ioService pluginInterface w3 ->
  QueryInterface pluginInterface kIOUSBInterfaceInterfaceID190 w3
    = (kIOReturnSuccess, intfInterface, w4) ->
  intfInterface <> NULL ->
  USBInterfaceOpen intfInterface (Release pluginInterface w4) = (kIOReturnSuccess, w5) ->
  exists m',
    mu_usb_find_device m = (Done tt, m') /\
    stack_effect m m' 2 [intfInterface; -1] /\
    sp m' = sp m /\
    peek m' 1 = intfInterface /\
    peek m' 0 = -1 /\
    (forall i, 0 <= i -> Z.testbit (peek m' 0) i = true).
Proof.
  intros (w1 & w2 & Hmatching & Hlookup & Hservice & Hplugin & Hnonnull) Hquery Hintf Hopen.
  unfold mu_usb_find_device, interface_criteria in *. usb_run.
  apply Z.eqb_neq in Hservice, Hnonnull, Hintf. usb_feed.
  eexists. split; [reflexivity |].
  split; [stack_effect_solve |].
  cbn [stack sp world trace]. split; [reflexivity |].
  split; [stack_lookup; reflexivity |].
  assert (E : forall f, <[sp m + 0 := -1]> f (sp m + 0) = -1)
    by (intros f; apply fn_lookup_insert).
  rewrite E. split; [reflexivity |].
  intros i Hi. apply Z.bits_m1. exact Hi.
Qed.


(** C9: in the interface-level and in the device-level lookup alike, a
    plug-in interface that has been created is released exactly once in
    the call: the release is the native call right after the query for the
    typed interface, before the result of the query is tested, so it is
    done when the query succeeds and when it fails, and no path leaves the
    plug-in interface unreleased. The release is made on the native layer:
    whatever the query answers, the world the call leaves is the one the
    query left with [Release] applied to it for the plug-in interface, taken
    through the calls that follow. *)
Theorem plugin_released_exactly_once (m : machine W) (matching : cfdict)
    (ioService p : Z) (w3 : W) :
  (plugin_created kIOUSBInterfaceClassName interface_criteria
     kIOUSBInterfaceUserClientTypeID m matching ioService p w3 ->
   released_after_query mu_usb_find_device kIOUSBInterfaceInterfaceID190 m
     (first_stage kIOUSBInterfaceClassName
        (interface_criteria matching (peek m 1) (peek m 0))
        kIOUSBInterfaceUserClientTypeID (sp m) ioService)
     p w3) /\
  (plugin_created kIOUSBDeviceClassName device_criteria
     kIOUSBDeviceUserClientTypeID m matching ioService p w3 ->
   released_after_query Device.mu_usb_find_device kIOUSBDeviceInterfaceID m
     (first_stage kIOUSBDeviceClassName
        (device_criteria matching (peek m 1) (peek m 0))
        kIOUSBDeviceUserClientTypeID (sp m) ioService)
     p w3).
Proof.
  split.
  - intros (w1 & w2 & Hmatching & Hlookup & Hservice & Hplugin & Hnonnull).
    apply Z.eqb_neq in Hservice, Hnonnull.
    unfold released_after_query, mu_usb_find_device, first_stage, interface_criteria in *.
    split; [| split].
    + usb_run.
      destruct (QueryInterface p kIOUSBInterfaceInterfaceID190 w3)
        as [[ior intfInterface] w4].
      usb_simpl.
      destruct (negb (ior =? kIOReturnSuccess) || (intfInterface =? NULL)).
      { released_with (@nil event). }
      usb_simpl.
      destruct (USBInterfaceOpen intfInterface (Release p w4)) as [ior' w5].
      usb_simpl.
      destruct (negb (ior' =? kIOReturnSuccess));
        released_with [Event (sp m) (CallUSBInterfaceOpen intfInterface)].
    + intros ior typed w4 Hquery Hfail. apply query_failed in Hfail.
      usb_run. rewrite Hfail. trace_norm. reflexivity.
    + intros ior typed w4 Hquery. usb_run.
      destruct (negb (ior =? kIOReturnSuccess) || (typed =? NULL)).
      { released_world (@nil event). }
      usb_simpl.
      destruct (USBInterfaceOpen typed (Release p w4)) as [ior' w5] eqn:Hopen.
      usb_simpl.
      destruct (negb (ior' =? kIOReturnSuccess));
        released_world [Event (sp m) (CallUSBInterfaceOpen typed)].
  - intros (w1 & w2 & Hmatching & Hlookup & Hservice & Hplugin & Hnonnull).
    apply Z.eqb_neq in Hservice, Hnonnull.
    unfold released_after_query, Device.mu_usb_find_device, first_stage, device_criteria in *.
    split; [| split].
    + usb_run.
      destruct (QueryInterface p kIOUSBDeviceInterfaceID w3)
        as [[ior deviceInterface] w4].
      usb_simpl.
      destruct (negb (ior =? kIOReturnSuccess) || (deviceInterface =? NULL));
        released_with (@nil event).
    + intros ior typed w4 Hquery Hfail. apply query_failed in Hfail.
      usb_run. rewrite Hfail. trace_norm. reflexivity.
    + intros ior typed w4 Hquery. usb_run.
      destruct (negb (ior =? kIOReturnSuccess) || (typed =? NULL));
        released_world (@nil event).
Qed.

End Lookup.

(** ** Closing and transferring *)

Section Transfers.
Context {W : Type} `{IOKit W}.
Variable cell_bits : Z.

(** When the native close fails, [usb-close] aborts with the machine as it
    was, but for the world and the log of the close. *)
Lemma mu_usb_close_failure (m : machine W) (ior : Z) (w1 : W) :
  USBInterfaceClose (peek m 0) (world m) = (ior, w1) ->
  ior <> kIOReturnSuccess ->
  mu_usb_close m =
    (Aborted "USBInterfaceClose failed",
     Machine (stack m) (sp m) w1
       (trace m ++ [Event (sp m) (CallUSBInterfaceClose (peek m 0))])).
Proof.
  intros Hclose Hior. apply Z.eqb_neq in Hior.
  unfold mu_usb_close. usb_run. reflexivity.
Qed.



(** C3: [usb-close] makes the native close first. If that fails the word
    aborts: the release is not made and the handle stays on the stack. If
    it succeeds the release follows, made while the handle is still on the
    stack, and then the handle is dropped. *)
Theorem close_then_release (m : machine W) (ior : Z) (w1 : W) :
  USBInterfaceClose (peek m 0) (world m) = (ior, w1) ->
  (ior <> kIOReturnSuccess ->
   mu_usb_close m =
     (Aborted "USBInterfaceClose failed",
      Machine (stack m) (sp m) w1
        (trace m ++ [Event (sp m) (CallUSBInterfaceClose (peek m 0))]))) /\
  (ior = kIOReturnSuccess ->
   mu_usb_close m =
     (Done tt,
      Machine (stack m) (sp m + 1) (Release (peek m 0) w1)
        (trace m ++ [Event (sp m) (CallUSBInterfaceClose (peek m 0));
                     Event (sp m) (CallRelease (peek m 0))]))).
Proof.
  intros Hclose. split.
  - intros Hior. now apply mu_usb_close_failure with (ior := ior).
  - intros ->. unfold mu_usb_close. usb_run. trace_norm. reflexivity.
Qed.

(** C4: when the native control request fails, [usb-control] has the
    stack effect [( bmRequestType bRequest wValue wIndex wLength 'buffer
    dev -- 0 )] and aborts; when it succeeds the word returns with the
    byte count the native call reported as its single output. *)
Theorem control_count (m : machine W) (ior wLenDone : Z) (w1 : W) :
  32 < cell_bits ->
  ControlRequestTO (peek m 0) 0 (control_request m) (world m) = (ior, wLenDone, w1) ->
  (ior <> kIOReturnSuccess ->
   exists m',
     mu_usb_control cell_bits m = (Aborted "ControlRequest failed", m') /\
     stack_effect m m' 7 [0] /\
     peek m' 0 = 0) /\
  (ior = kIOReturnSuccess ->
   unsigned_ok 32 wLenDone ->
   exists m',
     mu_usb_control cell_bits m = (Done tt, m') /\
     stack_effect m m' 7 [wLenDone] /\
     peek m' 0 = wLenDone).
Proof.
  intros Hwide Hcontrol. unfold control_request in Hcontrol. split.
  - intros Hior. apply Z.eqb_neq in Hior.
    unfold mu_usb_control. usb_run.
    eexists. split; [reflexivity |]. split; [stack_effect_solve |].
    unfold peek. cbn [stack sp]. stack_lookup. reflexivity.
  - intros -> Hdone.
    unfold mu_usb_control. usb_run.
    rewrite (to_cell_unsigned cell_bits 32 wLenDone) by (try lia; assumption).
    eexists. split; [reflexivity |]. split; [stack_effect_solve |].
    unfold peek. cbn [stack sp]. stack_lookup. reflexivity.
Qed.

(** C5: when [usb-read] succeeds, and the native read reports no more
    bytes than the length it was given, the count the word leaves is at
    most the size the caller gave: both cells read as unsigned counts,
    and as they stand when the size is not negative. *)
Theorem read_count_le_size (m : machine W) (size : Z) (w1 : W) :
  32 < cell_bits ->
  ReadPipeTO (peek m 0) (UInt8 (peek m 1)) (peek m 3) (UInt32 (peek m 2)) 100 400
    (world m) = (kIOReturnSuccess, size, w1) ->
  0 <= size <= UInt32 (peek m 2) ->
  exists m',
    mu_usb_read cell_bits m = (Done tt, m') /\
    stack_effect m m' 4 [size] /\
    peek m' 0 = size /\
    ucell cell_bits (peek m' 0) <= ucell cell_bits (peek m 2) /\
    (0 <= peek m 2 -> peek m' 0 <= peek m 2).
Proof.
  intros Hwide Hread Hsize.
  assert (Hu : unsigned_ok 32 size).
  { split; [lia |]. pose proof (to_unsigned_range 32 (peek m 2)). unfold UInt32 in Hsize. lia. }
  assert (Hle : UInt32 (peek m 2) <= ucell cell_bits (peek m 2))
    by (apply UInt32_le_ucell; lia).
  assert (Hucell : ucell cell_bits size = size).
  { unfold ucell. apply to_unsigned_id. destruct Hu as [Hu0 Hu1]. split; [lia |].
    assert (2 ^ 32 <= 2 ^ cell_bits) by (apply Z.pow_le_mono_r; lia). lia. }
  assert (Hnonneg : 0 <= peek m 2 -> size <= peek m 2).
  { intros Hpos. pose proof (UInt32_le_nonneg (peek m 2) Hpos). lia. }
  assert (Htop : exists m', mu_usb_read cell_bits m = (Done tt, m') /\
                 stack_effect m m' 4 [size] /\ peek m' 0 = size).
  { unfold mu_usb_read. usb_run.
    rewrite (to_cell_unsigned cell_bits 32 size) by (try lia; assumption).
    eexists. split; [reflexivity |]. split; [stack_effect_solve |].
    unfold peek. cbn [stack sp]. stack_lookup. reflexivity. }
  destruct Htop as (m' & Hrun & Heffect & Htop).
  exists m'. repeat split; try assumption.
  - apply Heffect.
  - apply Heffect.
  - apply Heffect.
  - rewrite Htop, Hucell. lia.
  - rewrite Htop. exact Hnonneg.
Qed.

(** C6: [usb-get-pipe-properties] makes one native query. When it
    succeeds the word has the stack effect [( pipe# dev -- direction number
    transferType maxpacketsize interval )], the five outputs being what
    that query wrote. When it fails the word aborts before it touches the
    stack: the two inputs are in place and nothing is output. *)
Theorem pipe_properties_all_or_nothing (m : machine W) (ior : Z)
    (props : pipe_properties) (w1 : W) :
  32 < cell_bits ->
  GetPipeProperties (peek m 0) (UInt8 (peek m 1)) (world m) = (ior, props, w1) ->
  (ior = kIOReturnSuccess ->
   pipe_properties_ok props ->
   exists m',
     mu_usb_get_pipe_properties cell_bits m = (Done tt, m') /\
     stack_effect m m' 2
       [pp_direction props; pp_number props; pp_transfer_type props;
        pp_max_packet_size props; pp_interval props] /\
     sp m' = sp m - 3 /\
     new_events m m' =
       [Event (sp m) (CallGetPipeProperties (peek m 0) (UInt8 (peek m 1)))]) /\
  (ior <> kIOReturnSuccess ->
   mu_usb_get_pipe_properties cell_bits m =
     (Aborted "GetPipeProperties failed",
      Machine (stack m) (sp m) w1
        (trace m ++
         [Event (sp m) (CallGetPipeProperties (peek m 0) (UInt8 (peek m 1)))]))).
Proof.
  intros Hwide Hquery. split.
  - intros -> (Hd & Hn & Ht & Hm & Hi).
    unfold mu_usb_get_pipe_properties. usb_run.
    rewrite (to_cell_unsigned cell_bits 8 (pp_direction props)),
      (to_cell_unsigned cell_bits 8 (pp_number props)),
      (to_cell_unsigned cell_bits 8 (pp_transfer_type props)),
      (to_cell_unsigned cell_bits 16 (pp_max_packet_size props)),
      (to_cell_unsigned cell_bits 8 (pp_interval props))
      by (try lia; assumption).
    eexists. split; [reflexivity |]. split; [stack_effect_solve |].
    cbn [sp]. split; [lia |].
    apply new_events_app. reflexivity.
  - intros Hior. apply Z.eqb_neq in Hior.
    unfold mu_usb_get_pipe_properties. usb_run. reflexivity.
Qed.

(** C7: on every call, whatever the stack holds and whatever the native
    layer answers, [usb-control] makes one control request whose no-data
    timeout is 1000 ms and whose completion timeout is 4000 ms, and
    [usb-read] and [usb-write] each make one pipe transfer with a 100 ms
    data timeout and a 400 ms completion timeout. These are the values the
    native functions are given: the world each word leaves is the one
    [ControlRequestTO], [ReadPipeTO] or [WritePipeTO] gives back for these
    very arguments, and the word returns or aborts as that call answers. *)
Theorem fixed_timeouts (m : machine W) :
  (exists at_sp self pipeRef req,
     new_events m (snd (mu_usb_control cell_bits m))
       = [Event at_sp (CallControlRequestTO self pipeRef req)] /\
     noDataTimeout req = 1000 /\ completionTimeout req = 4000 /\
     world (snd (mu_usb_control cell_bits m))
       = snd (ControlRequestTO self pipeRef req (world m)) /\
     ((fst (mu_usb_control cell_bits m) = Done tt /\
       fst (fst (ControlRequestTO self pipeRef req (world m))) = kIOReturnSuccess) \/
      (fst (mu_usb_control cell_bits m) = Aborted "ControlRequest failed" /\
       fst (fst (ControlRequestTO self pipeRef req (world m))) <> kIOReturnSuccess))) /\
  (exists at_sp self pipeRef buf size,
     new_events m (snd (mu_usb_read cell_bits m))
       = [Event at_sp (CallReadPipeTO self pipeRef buf size 100 400)] /\
     world (snd (mu_usb_read cell_bits m))
       = snd (ReadPipeTO self pipeRef buf size 100 400 (world m)) /\
     ((fst (mu_usb_read cell_bits m) = Done tt /\
       fst (fst (ReadPipeTO self pipeRef buf size 100 400 (world m)))
         = kIOReturnSuccess) \/
      (fst (mu_usb_read cell_bits m) = Aborted "ReadPipe failed" /\
       fst (fst (ReadPipeTO self pipeRef buf size 100 400 (world m)))
         <> kIOReturnSuccess))) /\
  (exists at_sp self pipeRef buf size,
     new_events m (snd (mu_usb_write m))
       = [Event at_sp (CallWritePipeTO self pipeRef buf size 100 400)] /\
     world (snd (mu_usb_write m))
       = snd (WritePipeTO self pipeRef buf size 100 400 (world m)) /\
     ((fst (mu_usb_write m) = Done tt /\
       fst (WritePipeTO self pipeRef buf size 100 400 (world m)) = kIOReturnSuccess) \/
      (fst (mu_usb_write m) = Aborted "WritePipe failed" /\
       fst (WritePipeTO self pipeRef buf size 100 400 (world m)) <> kIOReturnSuccess))).
Proof.
  split; [| split].
  - exists (sp m + 6), (peek m 0), 0, (control_request m).
    unfold mu_usb_control, control_request. usb_unfold.
    match goal with
    | |- context [ControlRequestTO ?i ?p ?r ?w] =>
        destruct (ControlRequestTO i p r w) as [[ior wLenDone] w1]
    end.
    usb_simpl.
    destruct (negb (ior =? kIOReturnSuccess)) eqn:Hior; usb_simpl.
    + apply negb_true_iff, Z.eqb_neq in Hior.
      split; [apply new_events_app; reflexivity |].
      do 3 (split; [reflexivity |]). right. split; [reflexivity | exact Hior].
    + apply negb_false_iff, Z.eqb_eq in Hior.
      split; [apply new_events_app; reflexivity |].
      do 3 (split; [reflexivity |]). left. split; [reflexivity | exact Hior].
  - exists (sp m), (peek m 0), (UInt8 (peek m 1)), (peek m 3), (UInt32 (peek m 2)).
    unfold mu_usb_read. usb_unfold.
    match goal with
    | |- context [ReadPipeTO ?i ?p ?b ?s ?t1 ?t2 ?w] =>
        destruct (ReadPipeTO i p b s t1 t2 w) as [[ior size] w1]
    end.
    usb_simpl.
    destruct (negb (ior =? kIOReturnSuccess)) eqn:Hior; usb_simpl.
    + apply negb_true_iff, Z.eqb_neq in Hior.
      split; [apply new_events_app; reflexivity |].
      split; [reflexivity |]. right. split; [reflexivity | exact Hior].
    + apply negb_false_iff, Z.eqb_eq in Hior.
      split; [apply new_events_app; reflexivity |].
      split; [reflexivity |]. left. split; [reflexivity | exact Hior].
  - exists (sp m), (peek m 0), (UInt8 (peek m 1)), (peek m 3), (UInt32 (peek m 2)).
    unfold mu_usb_write. usb_unfold.
    match goal with
    | |- context [WritePipeTO ?i ?p ?b ?s ?t1 ?t2 ?w] =>
        destruct (WritePipeTO i p b s t1 t2 w) as [ior w1]
    end.
    usb_simpl.
    destruct (negb (ior =? kIOReturnSuccess)) eqn:Hior; usb_simpl.
    + apply negb_true_iff, Z.eqb_neq in Hior.
      split; [apply new_events_app; reflexivity |].
      split; [reflexivity |]. right. split; [reflexivity | exact Hior].
    + apply negb_false_iff, Z.eqb_eq in Hior.
      split; [apply new_events_app; reflexivity |].
      split; [reflexivity |]. left. split; [reflexivity | exact Hior].
Qed.


End Transfers.

(** ** The properties on the scripted native layer *)

(** A lookup of an absent device, [0xFFFF 0xFFFF usb-find-device], leaves
    0 alone. *)
Lemma find_device_not_found_absent :
  exists m',
    mu_usb_find_device (find_absent stlink) = (Done tt, m') /\
    stack_effect (find_absent stlink) m' 2 [0] /\
    sp m' = 101 /\
    trace m' =
      [Event 100 (CallIOServiceMatching kIOUSBInterfaceClassName);
       Event 100 (CallIOServiceGetMatchingService kIOMasterPortDefault
                    (interface_criteria
                       {[ kIOProviderClassKey := CFClassName kIOUSBInterfaceClassName ]}
                       0xFFFF 0xFFFF))].
Proof.
  apply (find_device_not_found (find_absent stlink)
           {[ kIOProviderClassKey := CFClassName kIOUSBInterfaceClassName ]}
           stlink stlink); reflexivity.
Defined.

Lemma stlink_plugin_created :
  plugin_created kIOUSBInterfaceClassName interface_criteria
    kIOUSBInterfaceUserClientTypeID (find_stlink stlink)
    {[ kIOProviderClassKey := CFClassName kIOUSBInterfaceClassName ]}
    0x1203 0x7000 stlink.
Proof.
  exists stlink, stlink.
  split; [reflexivity |]. split; [reflexivity |]. split; [discriminate |].
  split; [reflexivity | discriminate].
Defined.

(** A lookup of the attached device leaves its handle under -1. *)
Lemma find_device_found_stlink :
  exists m',
    mu_usb_find_device (find_stlink stlink) = (Done tt, m') /\
    stack_effect (find_stlink stlink) m' 2 [0x7100; -1] /\
    sp m' = 100 /\
    peek m' 1 = 0x7100 /\
    peek m' 0 = -1 /\
    (forall i, 0 <= i -> Z.testbit (peek m' 0) i = true).
Proof.
  apply (find_device_found (find_stlink stlink)
           {[ kIOProviderClassKey := CFClassName kIOUSBInterfaceClassName ]}
           0x1203 0x7000 0x7100 stlink stlink (script_release 0x7000 stlink)).
  - exact stlink_plugin_created.
  - reflexivity.
  - discriminate.
  - reflexivity.
Defined.



(** Whether the query succeeds or fails, the plug-in interface 0x7000 is
    released once, right after the query, in both lookups. *)
Lemma plugin_released_exactly_once_stlink :
  released_after_query mu_usb_find_device kIOUSBInterfaceInterfaceID190
    (find_stlink stlink)
    (first_stage kIOUSBInterfaceClassName
       (interface_criteria
          {[ kIOProviderClassKey := CFClassName kIOUSBInterfaceClassName ]}
          0x0483 0x5740)
       kIOUSBInterfaceUserClientTypeID 100 0x1203)
    0x7000 stlink /\
  released_after_query Device.mu_usb_find_device kIOUSBDeviceInterfaceID
    (find_stlink (fail_query stlink))
    (first_stage kIOUSBDeviceClassName
       (device_criteria
          {[ kIOProviderClassKey := CFClassName kIOUSBDeviceClassName ]}
          0x0483 0x5740)
       kIOUSBDeviceUserClientTypeID 100 0x1203)
    0x7000 (fail_query stlink).
Proof.
  split.
  - apply (proj1 (plugin_released_exactly_once (find_stlink stlink)
                    {[ kIOProviderClassKey := CFClassName kIOUSBInterfaceClassName ]}
                    0x1203 0x7000 stlink)).
    exact stlink_plugin_created.
  - apply (proj2 (plugin_released_exactly_once (find_stlink (fail_query stlink))
                    {[ kIOProviderClassKey := CFClassName kIOUSBDeviceClassName ]}
                    0x1203 0x7000 (fail_query stlink))).
    exists (fail_query stlink), (fail_query stlink).
    split; [reflexivity |]. split; [reflexivity |]. split; [discriminate |].
    split; [reflexivity | discriminate].
Defined.

(** Closing the handle 0x7100: the close and the release when the close
    succeeds, the close alone and the handle kept when it fails. *)
Lemma close_then_release_stlink :
  mu_usb_close (on_handle stlink [7]) =
    (Done tt,
     Machine (stack_of 100 [0x7100; 7]) 101 (script_release 0x7100 stlink)
       [Event 100 (CallUSBInterfaceClose 0x7100); Event 100 (CallRelease 0x7100)]) /\
  mu_usb_close (on_handle (fail_transfers stlink) [7]) =
    (Aborted "USBInterfaceClose failed",
     Machine (stack_of 100 [0x7100; 7]) 100 (fail_transfers stlink)
       [Event 100 (CallUSBInterfaceClose 0x7100)]).
Proof.
  split.
  - destruct (close_then_release (on_handle stlink [7]) kIOReturnSuccess stlink)
      as [_ Hdone]; [reflexivity |].
    apply Hdone. reflexivity.
  - destruct (close_then_release (on_handle (fail_transfers stlink) [7])
                kIOReturnError (fail_transfers stlink))
      as [Habort _]; [reflexivity |].
    apply Habort. discriminate.
Defined.

(** A GET_DESCRIPTOR request of 18 bytes on 64-bit cells: 18 is left when
    the request succeeds, 0 when it fails. *)
Lemma control_count_stlink :
  (exists m',
     mu_usb_control 64 (on_handle stlink get_descriptor) = (Done tt, m') /\
     stack_effect (on_handle stlink get_descriptor) m' 7 [18] /\
     peek m' 0 = 18) /\
  (exists m',
     mu_usb_control 64 (on_handle (fail_transfers stlink) get_descriptor)
       = (Aborted "ControlRequest failed", m') /\
     stack_effect (on_handle (fail_transfers stlink) get_descriptor) m' 7 [0] /\
     peek m' 0 = 0).
Proof.
  split.
  - destruct (control_count 64 (on_handle stlink get_descriptor)
                kIOReturnSuccess 18 stlink)
      as [_ Hdone]; [lia | reflexivity |].
    apply Hdone; [reflexivity |]. unfold unsigned_ok. lia.
  - destruct (control_count 64 (on_handle (fail_transfers stlink) get_descriptor)
                kIOReturnError 0 (fail_transfers stlink))
      as [Habort _]; [lia | reflexivity |].
    apply Habort. discriminate.
Defined.

(** A read of up to 512 bytes from pipe 1 with 64 bytes waiting leaves 64. *)
Lemma read_count_le_size_stlink :
  exists m',
    mu_usb_read 64 (on_handle stlink [1; 512; 0x9000; 7]) = (Done tt, m') /\
    stack_effect (on_handle stlink [1; 512; 0x9000; 7]) m' 4 [64] /\
    peek m' 0 = 64 /\
    ucell 64 (peek m' 0) <= ucell 64 512 /\
    (0 <= 512 -> peek m' 0 <= 512).
Proof.
  apply (read_count_le_size 64 (on_handle stlink [1; 512; 0x9000; 7]) 64 stlink).
  - lia.
  - reflexivity.
  - split; [lia | discriminate].
Defined.

(** The properties of pipe 1: five cells when the query succeeds, the stack
    untouched when it fails. *)
Lemma pipe_properties_all_or_nothing_stlink :
  (exists m',
     mu_usb_get_pipe_properties 64 (on_handle stlink [1; 7]) = (Done tt, m') /\
     stack_effect (on_handle stlink [1; 7]) m' 2 [1; 2; 2; 512; 0] /\
     sp m' = 100 - 3 /\
     new_events (on_handle stlink [1; 7]) m' =
       [Event 100 (CallGetPipeProperties 0x7100 1)]) /\
  mu_usb_get_pipe_properties 64 (on_handle (fail_transfers stlink) [1; 7]) =
    (Aborted "GetPipeProperties failed",
     Machine (stack_of 100 [0x7100; 1; 7]) 100 (fail_transfers stlink)
       [Event 100 (CallGetPipeProperties 0x7100 1)]).
Proof.
  split.
  - destruct (pipe_properties_all_or_nothing 64 (on_handle stlink [1; 7])
                kIOReturnSuccess (snd (s_pipe stlink)) stlink)
      as [Hdone _]; [lia | reflexivity |].
    apply Hdone; [reflexivity |].
    unfold pipe_properties_ok, unsigned_ok. cbn. lia.
  - destruct (pipe_properties_all_or_nothing 64
                (on_handle (fail_transfers stlink) [1; 7])
                kIOReturnError (snd (s_pipe stlink)) (fail_transfers stlink))
      as [_ Habort]; [lia | reflexivity |].
    apply Habort. discriminate.
Defined.


(** * Every path through the words *)

(** Split a run on every native answer and every test the word makes. *)
Ltac path_split :=
  repeat (usb_simpl;
          match goal with
          | |- context [match ?x with (_, _) => _ end] =>
              lazymatch x with
              | context [match _ with _ => _ end] => fail
              | (_, _) => fail
              | _ => destruct x as [? ?] eqn:?
              end
          | |- context [match ?o with Some _ => _ | None => _ end] =>
              lazymatch o with
              | context [match _ with _ => _ end] => fail
              | _ => destruct o
              end
          | |- context [if ?c then _ else _] =>
              lazymatch c with
              | context [match _ with _ => _ end] => fail
              | _ => destruct c eqn:?
              end
          end);
  usb_simpl.

Section Paths.
Context {W : Type} `{IOKit W}.

(** X1: whenever a lookup aborts, at whichever step, the stack pointer and
    every cell are as they were when the word was entered. *)
Theorem find_device_abort_keeps_stack (m m' : machine W) (zmsg : string) :
  (mu_usb_find_device m = (Aborted zmsg, m') -> sp m' = sp m /\ stack m' = stack m) /\
  (Device.mu_usb_find_device m = (Aborted zmsg, m') ->
   sp m' = sp m /\ stack m' = stack m).
Proof.
  split.
  - unfold mu_usb_find_device. usb_unfold. path_split.
    all: intros Hrun; inversion Hrun; subst; split; reflexivity.
  - unfold Device.mu_usb_find_device. usb_unfold. path_split.
    all: intros Hrun; inversion Hrun; subst; split; reflexivity.
Qed.

Lemma checked_nonnull (ior p : Z) :
  negb (ior =? kIOReturnSuccess) || (p =? NULL) = false ->
  ior = kIOReturnSuccess /\ p <> NULL.
Proof.
  intros Hb. apply orb_false_elim in Hb. destruct Hb as [Hior Hp].
  apply negb_false_iff, Z.eqb_eq in Hior. apply Z.eqb_neq in Hp. now split.
Qed.


(** X3: the device-level lookup never opens anything, on any path: its log
    holds no open, and the world it leaves is exactly the one its logged
    calls make, one after the other, of the world it started from. When it
    returns, the top cell is 0 with one cell fewer on the stack, or it is -1
    on a stack as deep as before, over a device handle that is not NULL:
    the handle the query gave, the release of the plug-in interface having
    been the last native call, made on the world the query left. *)
Theorem device_find_return_flag (m : machine W) :
  List.filter is_open (new_events m (snd (Device.mu_usb_find_device m))) = [] /\
  world (snd (Device.mu_usb_find_device m))
    = replay (calls (new_events m (snd (Device.mu_usb_find_device m)))) (world m) /\
  forall m',
    Device.mu_usb_find_device m = (Done tt, m') ->
    (peek m' 0 = 0 /\ sp m' = sp m + 1 /\
     exists criteria,
       calls (new_events m m') =
         [CallIOServiceMatching kIOUSBDeviceClassName;
          CallIOServiceGetMatchingService kIOMasterPortDefault criteria]) \/
    (peek m' 0 = -1 /\ sp m' = sp m /\ peek m' 1 <> NULL /\
     exists before p w4,
       calls (new_events m m') =
         before ++ [CallQueryInterface p kIOUSBDeviceInterfaceID; CallRelease p] /\
       QueryInterface p kIOUSBDeviceInterfaceID (replay before (world m))
         = (kIOReturnSuccess, peek m' 1, w4) /\
       world m' = Release p w4).
Proof.
  split; [| split].
  - unfold Device.mu_usb_find_device. usb_unfold. path_split.
    all: erewrite new_events_app by (trace_norm; reflexivity); reflexivity.
  - unfold Device.mu_usb_find_device. usb_unfold. path_split.
    all: erewrite new_events_app by (trace_norm; reflexivity).
    all: unfold replay, calls; cbn [map fold_left ev_call apply_call].
    all: usb_feed; reflexivity.
  - intros m'. unfold Device.mu_usb_find_device. usb_unfold. path_split.
    all: intros Hrun; inversion Hrun; subst m'; clear Hrun; cbn [stack sp trace world].
    + left. split; [stack_lookup; reflexivity |]. split; [reflexivity |].
      eexists. erewrite new_events_app by (trace_norm; reflexivity). reflexivity.
    + right.
      match goal with
      | Hq : negb (_ =? kIOReturnSuccess) || (?h =? NULL) = false,
        Hc : QueryInterface _ _ _ = (_, ?h, _) |- _ =>
          destruct (checked_nonnull _ _ Hq) as [Hior Hh]
      end.
      subst. split; [stack_lookup; reflexivity |]. split; [reflexivity |].
      stack_lookup. split; [assumption |].
      erewrite new_events_app by (trace_norm; reflexivity).
      unfold calls; cbn [map ev_call].
      eexists [_; _; _], _, _. split; [reflexivity |].
      unfold replay; cbn [fold_left apply_call]. usb_feed.
      split; reflexivity.
Qed.


(** X5: when the open fails, the interface-level lookup aborts with the
    plug-in interface released but the interface it got from the query not
    released: the world is the one the failed open left, and the log of
    the call holds no release of that interface. *)
Theorem open_failure_keeps_interface (m : machine W) (matching : cfdict)
    (ioService pluginInterface intfInterface ior : Z) (w3 w4 w5 : W) :
  plugin_created kIOUSBInterfaceClassName interface_criteria
    kIOUSBInterfaceUserClientTypeID m matching ioService pluginInterface w3 ->
  QueryInterface pluginInterface kIOUSBInterfaceInterfaceID190 w3
    = (kIOReturnSuccess, intfInterface, w4) ->
  intfInterface <> NULL ->
  USBInterfaceOpen intfInterface (Release pluginInterface w4) = (ior, w5) ->
  ior <> kIOReturnSuccess ->
  exists m',
    mu_usb_find_device m = (Aborted "USBInterfaceOpen failed", m') /\
    stack m' = stack m /\ sp m' = sp m /\
    world m' = w5 /\
    releases_of pluginInterface (new_events m m') = 1%nat /\
    (intfInterface <> pluginInterface ->
     releases_of intfInterface (new_events m m') = 0%nat).
Proof.
  intros (w1 & w2 & Hmatching & Hlookup & Hservice & Hplugin & Hnonnull)
    Hquery Hintf Hopen Hior.
  unfold mu_usb_find_device, interface_criteria in *. usb_unfold.
  apply Z.eqb_neq in Hservice, Hnonnull, Hintf, Hior. usb_feed.
  eexists. split; [reflexivity |]. cbn [stack sp world trace].
  do 3 (split; [reflexivity |]).
  erewrite new_events_app by (trace_norm; reflexivity).
  unfold releases_of, is_release. cbn [List.filter ev_call length].
  rewrite Z.eqb_refl. split; [reflexivity |].
  intros Hne. apply not_eq_sym in Hne. apply Z.eqb_neq in Hne. rewrite Hne. reflexivity.
Qed.

End Paths.

Lemma UInt8_ok (x : Z) : unsigned_ok 8 (UInt8 x).
Proof. apply to_unsigned_range. lia. Qed.

Lemma UInt16_ok (x : Z) : unsigned_ok 16 (UInt16 x).
Proof. apply to_unsigned_range. lia. Qed.

Lemma UInt32_ok (x : Z) : unsigned_ok 32 (UInt32 x).
Proof. apply to_unsigned_range. lia. Qed.

Lemma UInt8_id (x : Z) : unsigned_ok 8 x -> UInt8 x = x.
Proof. apply to_unsigned_id. Qed.

Lemma UInt16_id (x : Z) : unsigned_ok 16 x -> UInt16 x = x.
Proof. apply to_unsigned_id. Qed.

Lemma UInt32_id (x : Z) : unsigned_ok 32 x -> UInt32 x = x.
Proof. apply to_unsigned_id. Qed.

Section TransferPaths.
Context {W : Type} `{IOKit W}.
Variable cell_bits : Z.

(** X6: [usb-write] never stores into the stack and leaves no output:
    whatever the native write answers, every cell is as it was, and the word
    either returns with its four inputs dropped or aborts with the stack
    pointer where it was. It returns exactly when the native write
    succeeded. *)
Theorem write_all_or_nothing (m : machine W) :
  stack (snd (mu_usb_write m)) = stack m /\
  ((fst (mu_usb_write m) = Done tt /\ sp (snd (mu_usb_write m)) = sp m + 4 /\
    fst (WritePipeTO (peek m 0) (UInt8 (peek m 1)) (peek m 3) (UInt32 (peek m 2))
           100 400 (world m)) = kIOReturnSuccess) \/
   (fst (mu_usb_write m) = Aborted "WritePipe failed" /\
    sp (snd (mu_usb_write m)) = sp m /\
    fst (WritePipeTO (peek m 0) (UInt8 (peek m 1)) (peek m 3) (UInt32 (peek m 2))
           100 400 (world m)) <> kIOReturnSuccess)).
Proof.
  unfold mu_usb_write. usb_unfold. path_split.
  - split; [reflexivity |]. right.
    match goal with Hc : negb _ = true |- _ =>
      apply negb_true_iff, Z.eqb_neq in Hc end.
    repeat split; assumption.
  - split; [reflexivity |]. left.
    match goal with Hc : negb _ = false |- _ =>
      apply negb_false_iff, Z.eqb_eq in Hc end.
    repeat split; assumption.
Qed.


Lemma mu_usb_control_log (m : machine W) :
  new_events m (snd (mu_usb_control cell_bits m)) =
    [Event (sp m + 6) (CallControlRequestTO (peek m 0) 0 (control_request m))].
Proof.
  unfold mu_usb_control, control_request. usb_unfold. path_split.
  all: erewrite new_events_app by (trace_norm; reflexivity); reflexivity.
Qed.


Lemma mu_usb_control_world (m : machine W) :
  world (snd (mu_usb_control cell_bits m))
    = snd (ControlRequestTO (peek m 0) 0 (control_request m) (world m)).
Proof.
  unfold mu_usb_control, control_request. usb_unfold. path_split; reflexivity.
Qed.

(** X9: the request [usb-control] hands to the native layer, whatever the
    cells hold: bmRequestType and bRequest are the low 8 bits of their
    cells, wValue, wIndex and wLength the low 16 bits, and the buffer is its
    cell as it is. So every field is within its C type, a cell that fits
    its field is passed unchanged, and a length cell of 65536 asks for 0
    bytes. The request is the one [ControlRequestTO] is given: the world the
    word leaves is the one that call gives back for it. *)
Theorem control_fields_narrowed (m : machine W) :
  exists req,
    calls (new_events m (snd (mu_usb_control cell_bits m)))
      = [CallControlRequestTO (peek m 0) 0 req] /\
    world (snd (mu_usb_control cell_bits m))
      = snd (ControlRequestTO (peek m 0) 0 req (world m)) /\
    bmRequestType req = peek m 6 mod 2 ^ 8 /\
    bRequest req = peek m 5 mod 2 ^ 8 /\
    wValue req = peek m 4 mod 2 ^ 16 /\
    wIndex req = peek m 3 mod 2 ^ 16 /\
    wLength req = peek m 2 mod 2 ^ 16 /\
    pData req = peek m 1 /\
    unsigned_ok 8 (bmRequestType req) /\ unsigned_ok 8 (bRequest req) /\
    unsigned_ok 16 (wValue req) /\ unsigned_ok 16 (wIndex req) /\
    unsigned_ok 16 (wLength req) /\
    (unsigned_ok 8 (peek m 6) -> bmRequestType req = peek m 6) /\
    (unsigned_ok 8 (peek m 5) -> bRequest req = peek m 5) /\
    (unsigned_ok 16 (peek m 4) -> wValue req = peek m 4) /\
    (unsigned_ok 16 (peek m 3) -> wIndex req = peek m 3) /\
    (unsigned_ok 16 (peek m 2) -> wLength req = peek m 2) /\
    (peek m 2 = 65536 -> wLength req = 0).
Proof.
  exists (control_request m).
  split; [rewrite mu_usb_control_log; reflexivity |].
  split; [apply mu_usb_control_world |].
  unfold control_request. cbn [bmRequestType bRequest wValue wIndex wLength pData].
  do 6 (split; [reflexivity |]).
  repeat match goal with |- _ /\ _ => split end;
    try apply UInt8_ok; try apply UInt16_ok;
    try apply UInt8_id; try apply UInt16_id.
  intros ->. reflexivity.
Qed.

(** X10: the pipe, buffer and size a transfer hands to the native layer:
    [usb-read] and [usb-write] each pass the handle and the buffer cell as
    they are, the low 8 bits of the pipe cell and the low 32 bits of the
    size cell, and [usb-get-pipe-properties] the low 8 bits of its pipe
    cell. So the pipe and the size are within their C types, and a pipe or
    size cell that fits is passed unchanged. These are the arguments
    [ReadPipeTO], [WritePipeTO] and [GetPipeProperties] are given: the
    world each word leaves is the one its call gives back for them. *)
Theorem transfer_arguments (m : machine W) :
  (exists pipeRef size,
     pipeRef = peek m 1 mod 2 ^ 8 /\
     size = peek m 2 mod 2 ^ 32 /\
     calls (new_events m (snd (mu_usb_read cell_bits m)))
       = [CallReadPipeTO (peek m 0) pipeRef (peek m 3) size 100 400] /\
     world (snd (mu_usb_read cell_bits m))
       = snd (ReadPipeTO (peek m 0) pipeRef (peek m 3) size 100 400 (world m)) /\
     calls (new_events m (snd (mu_usb_write m)))
       = [CallWritePipeTO (peek m 0) pipeRef (peek m 3) size 100 400] /\
     world (snd (mu_usb_write m))
       = snd (WritePipeTO (peek m 0) pipeRef (peek m 3) size 100 400 (world m)) /\
     calls (new_events m (snd (mu_usb_get_pipe_properties cell_bits m)))
       = [CallGetPipeProperties (peek m 0) pipeRef] /\
     world (snd (mu_usb_get_pipe_properties cell_bits m))
       = snd (GetPipeProperties (peek m 0) pipeRef (world m)) /\
     unsigned_ok 8 pipeRef /\ unsigned_ok 32 size /\
     (unsigned_ok 8 (peek m 1) -> pipeRef = peek m 1) /\
     (unsigned_ok 32 (peek m 2) -> size = peek m 2)).
Proof.
  exists (UInt8 (peek m 1)), (UInt32 (peek m 2)).
  do 2 (split; [reflexivity |]).
  split; [| split; [| split; [| split; [| split; [| split]]]]].
  - unfold mu_usb_read. usb_unfold. path_split.
    all: erewrite new_events_app by (trace_norm; reflexivity); reflexivity.
  - unfold mu_usb_read. usb_unfold. path_split; reflexivity.
  - unfold mu_usb_write. usb_unfold. path_split.
    all: erewrite new_events_app by (trace_norm; reflexivity); reflexivity.
  - unfold mu_usb_write. usb_unfold. path_split; reflexivity.
  - unfold mu_usb_get_pipe_properties. usb_unfold. path_split.
    all: erewrite new_events_app by (trace_norm; reflexivity); reflexivity.
  - unfold mu_usb_get_pipe_properties. usb_unfold. path_split; reflexivity.
  - split; [apply UInt8_ok |]. split; [apply UInt32_ok |].
    split; [apply UInt8_id | apply UInt32_id].
Qed.

(** X11: no word writes under its inputs. Whatever the native layer
    answers and however the word ends, the cells beneath the inputs of its
    stack comment are as they were: two cells for the lookups and for
    [usb-get-pipe-properties], one for the closes, seven for the requests,
    four for the pipe transfers. *)
Theorem words_keep_frame (m : machine W) (a : Z) :
  (sp m + 2 <= a -> stack (snd (mu_usb_find_device m)) a = stack m a) /\
  (sp m + 2 <= a -> stack (snd (Device.mu_usb_find_device m)) a = stack m a) /\
  (sp m + 1 <= a -> stack (snd (mu_usb_close m)) a = stack m a) /\
  (sp m + 1 <= a -> stack (snd (Device.mu_usb_close_device m)) a = stack m a) /\
  (sp m + 7 <= a -> stack (snd (mu_usb_control cell_bits m)) a = stack m a) /\
  (sp m + 7 <= a -> stack (snd (Device.mu_usb_device_request m)) a = stack m a) /\
  (sp m + 2 <= a ->
   stack (snd (mu_usb_get_pipe_properties cell_bits m)) a = stack m a) /\
  (sp m + 4 <= a -> stack (snd (mu_usb_read cell_bits m)) a = stack m a) /\
  (sp m + 4 <= a -> stack (snd (mu_usb_write m)) a = stack m a).
Proof.
  repeat match goal with |- _ /\ _ => split end; intros Ha.
  - unfold mu_usb_find_device. usb_unfold. path_split; stack_lookup; reflexivity.
  - unfold Device.mu_usb_find_device. usb_unfold. path_split; stack_lookup; reflexivity.
  - unfold mu_usb_close. usb_unfold. path_split; reflexivity.
  - unfold Device.mu_usb_close_device. usb_unfold. path_split; reflexivity.
  - unfold mu_usb_control. usb_unfold. path_split; stack_lookup; reflexivity.
  - unfold Device.mu_usb_device_request. usb_unfold. path_split; reflexivity.
  - unfold mu_usb_get_pipe_properties. usb_unfold. path_split; stack_lookup; reflexivity.
  - unfold mu_usb_read. usb_unfold. path_split; stack_lookup; reflexivity.
  - unfold mu_usb_write. usb_unfold. path_split; reflexivity.
Qed.

End TransferPaths.

(** * The matching dictionary *)

Lemma to_signed_range (w x : Z) : 0 < w -> cell_ok w (to_signed w x).
Proof.
  intros Hw. unfold cell_ok, to_signed.
  assert (E : 2 ^ w = 2 * 2 ^ (w - 1)).
  { replace w with (Z.succ (w - 1)) at 1 by lia. apply Z.pow_succ_r. lia. }
  assert (P : 0 < 2 ^ w) by (apply Z.pow_pos_nonneg; lia).
  pose proof (Z.mod_pos_bound (x + 2 ^ (w - 1)) (2 ^ w) P). lia.
Qed.

Lemma to_signed_low_bits (w x : Z) : to_signed w x mod 2 ^ w = x mod 2 ^ w.
Proof.
  unfold to_signed. rewrite Zminus_mod_idemp_l. f_equal. lia.
Qed.

Lemma to_signed_congr (w x y : Z) :
  x mod 2 ^ w = y mod 2 ^ w -> to_signed w x = to_signed w y.
Proof.
  intros E. unfold to_signed.
  rewrite <- (Zplus_mod_idemp_l x), <- (Zplus_mod_idemp_l y), E. reflexivity.
Qed.

(** X12: [add_number_match] sets one key and keeps the low 32 bits of its
    value: the number found under the key afterwards is a signed 32-bit
    number with the low 32 bits of the value; two values with the same low
    32 bits give the same dictionary; every other key is untouched; and
    setting the key again replaces the number. *)
Theorem add_number_match_low_bits (matching : cfdict) (k : cfkey) (v v' : Z) :
  (exists n,
     add_number_match matching k v !! k = Some (CFNumberSInt32 n) /\
     cell_ok 32 n /\ n mod 2 ^ 32 = v mod 2 ^ 32) /\
  (v mod 2 ^ 32 = v' mod 2 ^ 32 ->
   add_number_match matching k v = add_number_match matching k v') /\
  (forall k', k' <> k -> add_number_match matching k v !! k' = matching !! k') /\
  add_number_match (add_number_match matching k v) k v'
    = add_number_match matching k v'.
Proof.
  unfold add_number_match. split; [| split; [| split]].
  - exists (SInt32 v). split; [apply lookup_insert_eq |].
    split; [apply to_signed_range; lia | apply to_signed_low_bits].
  - intros E. unfold SInt32. now rewrite (to_signed_congr 32 v v' E).
  - intros k' Hk. apply lookup_insert_ne. congruence.
  - apply insert_insert_eq.
Qed.


Section DeviceLookup.
Context {W : Type} `{IOKit W}.


End DeviceLookup.

(** * Words in sequence *)

Section Sequences.
Context {W : Type} `{IOKit W}.
Variable cell_bits : Z.


(** X15: a found device, closed. After the device-level lookup has
    returned with the flag -1 and the flag has been dropped,
    [usb-close-device] cannot fail: it releases the device handle the lookup
    left, which is not NULL and is the one the query gave, and drops it.
    Both releases are made on the native layer: the lookup leaves the world
    of the query with [Release] applied for the plug-in interface, and
    [usb-close-device] leaves that world with [Release] applied for the
    device handle. Nothing is opened or closed, and the cells beneath the
    inputs of the lookup are as they were. *)
Theorem device_find_then_close (m m1 : machine W) :
  Device.mu_usb_find_device m = (Done tt, m1) ->
  peek m1 0 = -1 ->
  exists m2,
    Device.mu_usb_close_device (snd (DROP 1 m1)) = (Done tt, m2) /\
    sp m2 = sp m + 2 /\
    (forall a, sp m + 2 <= a -> stack m2 a = stack m a) /\
    peek m1 1 <> NULL /\
    world m2 = Release (peek m1 1) (world m1) /\
    exists before p w4,
      calls (new_events m m2) =
        before ++ [CallQueryInterface p kIOUSBDeviceInterfaceID;
                   CallRelease p;
                   CallRelease (peek m1 1)] /\
      QueryInterface p kIOUSBDeviceInterfaceID (replay before (world m))
        = (kIOReturnSuccess, peek m1 1, w4) /\
      world m1 = Release p w4.
Proof.
  unfold Device.mu_usb_find_device. usb_unfold. path_split.
  all: intros Hrun; inversion Hrun; subst m1; clear Hrun.
  all: unfold Device.mu_usb_close_device; usb_unfold; stack_lookup.
  - intros Hflag. discriminate Hflag.
  - intros _.
    match goal with
    | Hq : negb (_ =? kIOReturnSuccess) || (?h =? NULL) = false,
      Hc : QueryInterface _ _ _ = (_, ?h, _) |- _ =>
        destruct (checked_nonnull _ _ Hq) as [Hior Hh]
    end.
    subst. eexists. split; [reflexivity |]. cbn [stack sp trace world].
    split; [lia |].
    split; [intros a Ha; stack_lookup; reflexivity |].
    split; [assumption |].
    split; [reflexivity |].
    erewrite new_events_app by (trace_norm; reflexivity).
    unfold calls; cbn [map ev_call].
    eexists [_; _; _], _, _. split; [reflexivity |].
    unfold replay; cbn [fold_left apply_call]. usb_feed.
    split; reflexivity.
Qed.

End Sequences.

(** * The further properties on the scripted native layer *)

Ltac range_ok :=
  unfold unsigned_ok, cell_ok; vm_compute; split; [discriminate | reflexivity].

(** A lookup aborted at the query, and a device-level lookup aborted at the
    creation of the plug-in interface, leave the three cells in place. *)
Lemma find_device_abort_keeps_stack_stlink :
  (sp (snd (mu_usb_find_device (find_stlink (fail_query stlink)))) = 100 /\
   stack (snd (mu_usb_find_device (find_stlink (fail_query stlink))))
     = stack_of 100 [0x5740; 0x0483; 7]) /\
  (sp (snd (Device.mu_usb_find_device (find_stlink (fail_plugin stlink)))) = 100 /\
   stack (snd (Device.mu_usb_find_device (find_stlink (fail_plugin stlink))))
     = stack_of 100 [0x5740; 0x0483; 7]).
Proof.
  split.
  - destruct (find_device_abort_keeps_stack (find_stlink (fail_query stlink))
                (snd (mu_usb_find_device (find_stlink (fail_query stlink))))
                "QueryInterface failed") as [Hinterface _].
    apply Hinterface. reflexivity.
  - destruct (find_device_abort_keeps_stack (find_stlink (fail_plugin stlink))
                (snd (Device.mu_usb_find_device (find_stlink (fail_plugin stlink))))
                "IOCreatePlugInInterfaceForService failed") as [_ Hdevice].
    apply Hdevice. reflexivity.
Defined.


Lemma device_find_return_flag_stlink :
  (peek (snd (Device.mu_usb_find_device (find_stlink stlink))) 0 = 0 /\
   sp (snd (Device.mu_usb_find_device (find_stlink stlink))) = 100 + 1 /\
   exists criteria,
     calls (new_events (find_stlink stlink)
              (snd (Device.mu_usb_find_device (find_stlink stlink)))) =
       [CallIOServiceMatching kIOUSBDeviceClassName;
        CallIOServiceGetMatchingService kIOMasterPortDefault criteria]) \/
  (peek (snd (Device.mu_usb_find_device (find_stlink stlink))) 0 = -1 /\
   sp (snd (Device.mu_usb_find_device (find_stlink stlink))) = 100 /\
   peek (snd (Device.mu_usb_find_device (find_stlink stlink))) 1 <> NULL /\
   exists before p w4,
     calls (new_events (find_stlink stlink)
              (snd (Device.mu_usb_find_device (find_stlink stlink)))) =
       before ++ [CallQueryInterface p kIOUSBDeviceInterfaceID; CallRelease p] /\
     QueryInterface p kIOUSBDeviceInterfaceID (replay before stlink)
       = (kIOReturnSuccess,
          peek (snd (Device.mu_usb_find_device (find_stlink stlink))) 1, w4) /\
     world (snd (Device.mu_usb_find_device (find_stlink stlink))) = Release p w4).
Proof.
  destruct (device_find_return_flag (find_stlink stlink)) as (_ & _ & Hreturn).
  apply (Hreturn (snd (Device.mu_usb_find_device (find_stlink stlink)))).
  reflexivity.
Defined.


(** With the open failing, the plug-in interface 0x7000 is released and the
    interface 0x7100 is not. *)
Lemma open_failure_keeps_interface_stlink :
  exists m',
    mu_usb_find_device (find_stlink (fail_open stlink))
      = (Aborted "USBInterfaceOpen failed", m') /\
    stack m' = stack_of 100 [0x5740; 0x0483; 7] /\ sp m' = 100 /\
    world m' = script_release 0x7000 (fail_open stlink) /\
    releases_of 0x7000 (new_events (find_stlink (fail_open stlink)) m') = 1%nat /\
    (0x7100 <> 0x7000 ->
     releases_of 0x7100 (new_events (find_stlink (fail_open stlink)) m') = 0%nat).
Proof.
  apply (open_failure_keeps_interface (find_stlink (fail_open stlink))
           {[ kIOProviderClassKey := CFClassName kIOUSBInterfaceClassName ]}
           0x1203 0x7000 0x7100 kIOReturnError
           (fail_open stlink) (fail_open stlink)
           (script_release 0x7000 (fail_open stlink))).
  - exists (fail_open stlink), (fail_open stlink).
    split; [reflexivity |]. split; [reflexivity |]. split; [discriminate |].
    split; [reflexivity | discriminate].
  - reflexivity.
  - discriminate.
  - reflexivity.
  - discriminate.
Defined.


(** A length cell of 65536 asks for 0 bytes; the request code 6 is passed
    as it is. *)
Lemma control_fields_narrowed_stlink :
  exists req,
    calls (new_events (on_handle stlink long_request)
             (snd (mu_usb_control 64 (on_handle stlink long_request))))
      = [CallControlRequestTO 0x7100 0 req] /\
    wLength req = 0 /\ bRequest req = 6 /\ bmRequestType req = 0x80 /\
    wValue req = 0x100 /\ wIndex req = 0.
Proof.
  destruct (control_fields_narrowed 64 (on_handle stlink long_request))
    as (req & Hlog & _ & _ & _ & _ & _ & _ & _ & _ & _ & _ & _ & _
        & Htype & Hrequest & Hvalue & Hindex & _ & Hlong).
  exists req. split; [exact Hlog |].
  split; [apply Hlong; reflexivity |].
  split; [apply Hrequest; range_ok |].
  split; [apply Htype; range_ok |].
  split; [apply Hvalue; range_ok | apply Hindex; range_ok].
Defined.

Lemma transfer_arguments_stlink :
  exists pipeRef size,
    calls (new_events (on_handle stlink read_512)
             (snd (mu_usb_read 64 (on_handle stlink read_512))))
      = [CallReadPipeTO 0x7100 pipeRef 0x9000 size 100 400] /\
    calls (new_events (on_handle stlink read_512)
             (snd (mu_usb_write (on_handle stlink read_512))))
      = [CallWritePipeTO 0x7100 pipeRef 0x9000 size 100 400] /\
    calls (new_events (on_handle stlink read_512)
             (snd (mu_usb_get_pipe_properties 64 (on_handle stlink read_512))))
      = [CallGetPipeProperties 0x7100 pipeRef] /\
    pipeRef = 1 /\ size = 512.
Proof.
  destruct (transfer_arguments 64 (on_handle stlink read_512))
    as (pipeRef & size & _ & _ & Hread & _ & Hwrite & _ & Hpipe & _ & _ & _ & Hp & Hs).
  exists pipeRef, size.
  split; [exact Hread |]. split; [exact Hwrite |]. split; [exact Hpipe |].
  split; [apply Hp; range_ok | apply Hs; range_ok].
Defined.

(** The caller's cell under the inputs, at address 107 or 104, comes through
    every word. *)
Lemma words_keep_frame_stlink :
  stack (snd (mu_usb_find_device (on_handle stlink get_descriptor))) 107 = 7 /\
  stack (snd (Device.mu_usb_find_device (on_handle stlink get_descriptor))) 107 = 7 /\
  stack (snd (mu_usb_close (on_handle stlink get_descriptor))) 107 = 7 /\
  stack (snd (Device.mu_usb_close_device (on_handle stlink get_descriptor))) 107 = 7 /\
  stack (snd (mu_usb_control 64 (on_handle stlink get_descriptor))) 107 = 7 /\
  stack (snd (Device.mu_usb_device_request (on_handle stlink get_descriptor))) 107 = 7 /\
  stack (snd (mu_usb_get_pipe_properties 64 (on_handle stlink get_descriptor))) 107 = 7 /\
  stack (snd (mu_usb_read 64 (on_handle stlink get_descriptor))) 107 = 7 /\
  stack (snd (mu_usb_write (on_handle stlink get_descriptor))) 107 = 7.
Proof.
  destruct (words_keep_frame 64 (on_handle stlink get_descriptor) 107)
    as (H1 & H2 & H3 & H4 & H5 & H6 & H7 & H8 & H9).
  split; [apply H1; discriminate |].
  split; [apply H2; discriminate |].
  split; [apply H3; discriminate |].
  split; [apply H4; discriminate |].
  split; [apply H5; discriminate |].
  split; [apply H6; discriminate |].
  split; [apply H7; discriminate |].
  split; [apply H8; discriminate | apply H9; discriminate].
Defined.

(** The vendor values 0x100000483 and 0x0483 give the same dictionary. *)
Lemma add_number_match_low_bits_wide :
  add_number_match ∅ kUSBVendorID 0x100000483 = add_number_match ∅ kUSBVendorID 0x0483 /\
  add_number_match ∅ kUSBVendorID 0x100000483 !! kUSBProductID = None.
Proof.
  destruct (add_number_match_low_bits ∅ kUSBVendorID 0x100000483 0x0483)
    as (_ & Hsame & Hother & _).
  split; [apply Hsame; reflexivity |].
  apply (Hother kUSBProductID). discriminate.
Defined.



Lemma device_find_then_close_stlink :
  exists m2,
    Device.mu_usb_close_device
      (snd (DROP 1 (snd (Device.mu_usb_find_device (find_stlink stlink)))))
      = (Done tt, m2) /\
    sp m2 = 100 + 2 /\
    (forall a, 100 + 2 <= a -> stack m2 a = stack_of 100 [0x5740; 0x0483; 7] a) /\
    peek (snd (Device.mu_usb_find_device (find_stlink stlink))) 1 <> NULL /\
    world m2 =
      Release (peek (snd (Device.mu_usb_find_device (find_stlink stlink))) 1)
        (world (snd (Device.mu_usb_find_device (find_stlink stlink)))) /\
    exists before p w4,
      calls (new_events (find_stlink stlink) m2) =
        before ++
        [CallQueryInterface p kIOUSBDeviceInterfaceID;
         CallRelease p;
         CallRelease (peek (snd (Device.mu_usb_find_device (find_stlink stlink))) 1)] /\
      QueryInterface p kIOUSBDeviceInterfaceID (replay before stlink)
        = (kIOReturnSuccess,
           peek (snd (Device.mu_usb_find_device (find_stlink stlink))) 1, w4) /\
      world (snd (Device.mu_usb_find_device (find_stlink stlink))) = Release p w4.
Proof.
  apply (device_find_then_close (find_stlink stlink)
           (snd (Device.mu_usb_find_device (find_stlink stlink)))); reflexivity.
Defined.


